(** * A shallow embedding of the data pipeline scripts

    The repository holds four variants of one Streamlit script
    (test_code4.py is the fullest; test_code1.py, test_code2.py and
    piping_data.py are earlier ones).  Each loads a pandas DataFrame,
    cleans it, suggests column types and draws charts.  This file embeds
    the locally written decision logic:

    - [suggest_dtype]           test_code4.py, lines 307-330;
    - the null / duplicate cleaning stages of the four variants;
    - the chart rendering loop and the per-plot widgets of piping_data.py.

    pandas, numpy, streamlit and plotly are libraries: the operations the
    scripts call on them ([dropna], [sample], [fillna], [mode],
    [drop_duplicates], ...) are modelled on lists of cells after their
    documented behaviour.  What cannot be written down exactly (the
    permissive datetime parser, Python's constructors applied to a text,
    float formatting, mean and median in floating point) is gathered in
    one record, [runtime], that every definition takes as a parameter. *)

From Stdlib Require Import List String Ascii Bool Arith PeanoNat ZArith QArith Lia.
From Stdlib Require Import DecimalString Permutation.
Import ListNotations.

Local Open Scope string_scope.
Local Open Scope nat_scope.

(* ================================================================== *)
(** ** Python strings *)

(** A [str] is modelled by a Rocq string whose characters are the code
    points 0..255 (Latin-1). *)

Definition code (c : ascii) : nat := nat_of_ascii c.

(** [str.isnumeric] on one character: the decimal digits, and the
    Latin-1 characters with a numeric value (superscripts 2, 3, 1 and the
    vulgar fractions). *)
Definition is_numeric_char (c : ascii) : bool :=
  let n := code c in
  ((48 <=? n) && (n <=? 57))
  || (n =? 178) || (n =? 179) || (n =? 185)
  || ((188 <=? n) && (n <=? 190)).

Fixpoint all_chars (p : ascii -> bool) (s : string) : bool :=
  match s with
  | EmptyString => true
  | String c s' => p c && all_chars p s'
  end.

(** [str.isnumeric()]: every character is numeric and there is at least
    one character. *)
Definition isnumeric (s : string) : bool :=
  match s with
  | EmptyString => false
  | _ => all_chars is_numeric_char s
  end.

(** [s.replace(".", "", 1)]: the first full stop is removed. *)
Fixpoint replace_first_dot (s : string) : string :=
  match s with
  | EmptyString => EmptyString
  | String c s' =>
      if (code c =? 46) then s' else String c (replace_first_dot s')
  end.

(** [str.lower] on one character (A-Z, and the Latin-1 capitals). *)
Definition lower_char (c : ascii) : ascii :=
  let n := code c in
  if ((65 <=? n) && (n <=? 90))
     || ((192 <=? n) && (n <=? 222) && negb (n =? 215))
  then ascii_of_nat (n + 32) else c.

Fixpoint lower (s : string) : string :=
  match s with
  | EmptyString => EmptyString
  | String c s' => String (lower_char c) (lower s')
  end.

(** [x in xs] for strings. *)
Definition str_in (s : string) (xs : list string) : bool :=
  existsb (String.eqb s) xs.

(** [str(n)] for a Python [int]. *)
Definition str_of_int (z : Z) : string :=
  NilZero.string_of_int (Z.to_int z).

(* ================================================================== *)
(** ** Cell values, columns and tables *)

(** The Python objects a cell can hold. *)
Inductive value : Type :=
| VStr (s : string)
| VInt (z : Z)
| VBool (b : bool)
| VFloat (q : Q)          (* a finite float, as the rational it denotes *)
| VTime (ns : Z).         (* a Timestamp, nanoseconds since the epoch *)

(** A cell: a value, or the missing marker (None / NaN / NaT). *)
Definition cell : Type := option value.

Inductive pytype : Type := TStr | TInt | TBool | TFloat | TTimestamp.

(** [type(v)]. *)
Definition type_of (v : value) : pytype :=
  match v with
  | VStr _ => TStr
  | VInt _ => TInt
  | VBool _ => TBool
  | VFloat _ => TFloat
  | VTime _ => TTimestamp
  end.

(** The library behaviour the scripts rely on and this file does not
    spell out. *)
Record runtime : Type := {
  (** [pd.to_datetime] accepts this value (it raises on a sequence as soon
      as one element is not accepted).  A value is accepted or not by
      itself: the single format that pandas 2 infers from the first
      element of a sequence, which can make the verdict on a sequence
      depend on the order of its values, is not modelled. *)
  parses_datetime : value -> bool;
  (** [T(text)] for the type [T] of a cell value: [None] when the
      constructor raises, otherwise the cell it yields (a float
      constructor can yield NaN, which is a missing cell). *)
  construct : pytype -> string -> option cell;
  (** [str(x)] on a float and on a Timestamp. *)
  str_of_float : Q -> string;
  str_of_time : Z -> string;
  (** [Series.mean()] and [Series.median()] over the non-missing cells
      (NaN on an empty column). *)
  mean_of : list value -> cell;
  median_of : list value -> cell
}.

(** The number a value denotes in Python's numeric tower. *)
Definition num_of (v : value) : option Q :=
  match v with
  | VInt z => Some (inject_Z z)
  | VBool b => Some (if b then 1%Q else 0%Q)
  | VFloat q => Some q
  | _ => None
  end.

(** Python's [==] between two cell values (the equality pandas hashes
    on): numbers by value, strings and timestamps by content. *)
Definition value_eqb (a b : value) : bool :=
  match a, b with
  | VStr s, VStr t => String.eqb s t
  | VTime s, VTime t => Z.eqb s t
  | _, _ =>
      match num_of a, num_of b with
      | Some p, Some q => Qeq_bool p q
      | _, _ => false
      end
  end.

(** Two cells agree when both are missing or both hold equal values. *)
Definition cell_eqb (a b : cell) : bool :=
  match a, b with
  | None, None => true
  | Some x, Some y => value_eqb x y
  | _, _ => false
  end.

Inductive dtype : Type := int64 | float64 | bool_ | datetime64 | object_.

(** A pandas Series: the dtype it is stored with and its cells. *)
Record Series : Type := mkSeries {
  s_dtype : dtype;
  s_cells : list cell
}.

(** A DataFrame: named columns, in order. *)
Definition DataFrame : Type := list (string * Series).

Section Pipeline.

Variable py : runtime.

(** [str(v)], as [astype(str)] applies it to each value. *)
Definition py_str (v : value) : string :=
  match v with
  | VStr s => s
  | VInt z => str_of_int z
  | VBool b => if b then "True" else "False"
  | VFloat q => str_of_float py q
  | VTime t => str_of_time py t
  end.

(** [series.dropna()]: the non-missing values, in order. *)
Fixpoint dropna (l : list cell) : list value :=
  match l with
  | [] => []
  | Some v :: l' => v :: dropna l'
  | None :: l' => dropna l'
  end.

Definition isnull (c : cell) : bool :=
  match c with None => true | Some _ => false end.

(* ================================================================== *)
(** ** Random sampling *)

(** The random generator behind [Series.sample]: the stream of raw draws
    that a seeded generator produces.  The scripts pass no
    [random_state], so numpy's global generator is used. *)
Definition rng : Type := nat -> nat.

Fixpoint remove_nth {A : Type} (i : nat) (l : list A) : list A :=
  match l, i with
  | [], _ => []
  | _ :: l', 0 => l'
  | x :: l', S i' => x :: remove_nth i' l'
  end.

(** [n] draws without replacement, the [k]-th draw picking position
    [g k mod List.length l] among the values still in the urn. *)
Fixpoint draw {A : Type} (g : rng) (k n : nat) (l : list A) : list A :=
  match n with
  | 0 => []
  | S n' =>
      match l with
      | [] => []
      | x :: _ =>
          let i := g k mod List.length l in
          nth i l x :: draw g (S k) n' (remove_nth i l)
      end
  end.

(** [Series.sample(n)] (without replacement): [None] stands for the
    ValueError pandas raises when [n] exceeds the population.  The
    series sampled from is not changed: the result is a new list. *)
Definition sample {A : Type} (g : rng) (n : nat) (l : list A)
  : option (list A) :=
  if List.length l <? n then None else Some (draw g 0 n l).

(* ================================================================== *)
(** ** Type inference: suggest_dtype (test_code4.py, 307-330) *)

(** The six strings [suggest_dtype] can return. *)
Inductive SemanticType : Type :=
| Integer | Float | Text | Timestamp | Boolean | Category.

Definition dtype_name (t : SemanticType) : string :=
  match t with
  | Integer => "int64"
  | Float => "float64"
  | Text => "object"
  | Timestamp => "datetime64[ns]"
  | Boolean => "bool"
  | Category => "category"
  end.

(** [pd.api.types.is_numeric_dtype]: integers, floats and also numpy
    booleans. *)
Definition is_numeric_dtype (s : Series) : bool :=
  match s_dtype s with
  | int64 | float64 | bool_ => true
  | _ => false
  end.

Definition is_integer_dtype (s : Series) : bool :=
  match s_dtype s with int64 => true | _ => false end.

Definition is_datetime64_any_dtype (s : Series) : bool :=
  match s_dtype s with datetime64 => true | _ => false end.

Definition is_bool_dtype (s : Series) : bool :=
  match s_dtype s with bool_ => true | _ => false end.

(** [len(series)]: all rows, missing ones included. *)
Definition len (s : Series) : nat := List.length (s_cells s).

(** The size asked of [sample]: [min(50, len(series))]. *)
Definition sample_size (s : Series) : nat := Nat.min 50 (len s).

(** The [try] block of lines 316-320:
    [pd.to_datetime(series.dropna().sample(min(50, len(series))), errors="raise")].
    [true] when no exception is raised. *)
Definition try_to_datetime (g : rng) (s : Series) : bool :=
  match sample g (sample_size s) (dropna (s_cells s)) with
  | None => false
  | Some smp => forallb (parses_datetime py) smp
  end.

(** Line 322:
    [series.dropna().astype(str).str.replace(".", "", 1).str.isnumeric().all()]. *)
Definition all_isnumeric (s : Series) : bool :=
  forallb (fun v => isnumeric (replace_first_dot (py_str v)))
          (dropna (s_cells s)).

Definition bool_words : list string :=
  ["true"; "false"; "yes"; "no"; "0"; "1"].

(** Line 325:
    [series.dropna().astype(str).str.lower().isin([...]).all()]. *)
Definition all_bool_words (s : Series) : bool :=
  forallb (fun v => str_in (lower (py_str v)) bool_words)
          (dropna (s_cells s)).

(** The distinct values of a list, first occurrences kept. *)
Fixpoint distinct (l : list value) : list value :=
  match l with
  | [] => []
  | v :: l' => v :: filter (fun w => negb (value_eqb w v)) (distinct l')
  end.

(** [series.nunique()]: the number of distinct non-missing values. *)
Definition nunique (s : Series) : nat :=
  List.length (distinct (dropna (s_cells s))).

(** Line 328: [series.nunique() < (0.05 * len(series))].  The product is
    a float in the source.  The double nearest to 0.05 exceeds it by one
    part in 2^54, too little to carry the rounded product of a row count
    below 2^50 past the next integer, so the float comparison with the
    integer [k] decides as the exact one, [20 * k < n], which is the one
    written here. *)
Definition category_rule (s : Series) : bool :=
  20 * nunique s <? len s.

Definition suggest_dtype (g : rng) (series : Series) : SemanticType :=
  if is_numeric_dtype series then
    if is_integer_dtype series then Integer else Float
  else if is_datetime64_any_dtype series then Timestamp
  else if is_bool_dtype series then Boolean
  else
    if try_to_datetime g series then Timestamp
    else if all_isnumeric series then Float
    else if all_bool_words series then Boolean
    else if category_rule series then Category
    else Text.

(* ================================================================== *)
(** ** pandas operations used by the cleaning steps *)

(** *** Rows of a frame *)

Definition row : Type := list cell.

Fixpoint zip_cons (c : list cell) (rs : list row) : list row :=
  match c, rs with
  | x :: c', r :: rs' => (x :: r) :: zip_cons c' rs'
  | _, _ => []
  end.

(** The rows of a list of columns. *)
Fixpoint transpose (cols : list (list cell)) : list row :=
  match cols with
  | [] => []
  | c :: cs =>
      match cs with
      | [] => map (fun x => [x]) c
      | _ => zip_cons c (transpose cs)
      end
  end.

Definition rows (df : DataFrame) : list row :=
  transpose (map (fun c => s_cells (snd c)) df).

(** Boolean indexing [x[mask]]: the entries whose mask bit is set. *)
Fixpoint select {A : Type} (mask : list bool) (l : list A) : list A :=
  match mask, l with
  | b :: mask', x :: l' =>
      if b then x :: select mask' l' else select mask' l'
  | _, _ => []
  end.

(** [df[mask]]: the same rows are kept in every column. *)
Definition select_rows (mask : list bool) (df : DataFrame) : DataFrame :=
  map (fun c => (fst c, mkSeries (s_dtype (snd c))
                                 (select mask (s_cells (snd c))))) df.

(** *** dropna *)

Inductive how : Type := how_any | how_all.

(** A row survives [dropna(how="any")] when it has no missing cell, and
    [dropna(how="all")] when it has a non-missing cell. *)
Definition survives (h : how) (r : row) : bool :=
  match h with
  | how_any => forallb (fun c => negb (isnull c)) r
  | how_all => existsb (fun c => negb (isnull c)) r
  end.

Definition df_dropna (h : how) (df : DataFrame) : DataFrame :=
  select_rows (map (survives h) (rows df)) df.

(** *** duplicated / drop_duplicates *)

Fixpoint row_eqb (r1 r2 : row) : bool :=
  match r1, r2 with
  | [], [] => true
  | a :: r1', b :: r2' => cell_eqb a b && row_eqb r1' r2'
  | _, _ => false
  end.

(** [duplicated(keep="first")] on a list of keys: a key is marked when an
    equal key stands before it. *)
Fixpoint duplicated_from (seen : list row) (keys : list row) : list bool :=
  match keys with
  | [] => []
  | r :: keys' =>
      existsb (row_eqb r) seen :: duplicated_from (r :: seen) keys'
  end.

Inductive keep : Type := keep_first | keep_last.

Definition duplicated_keys (k : keep) (keys : list row) : list bool :=
  match k with
  | keep_first => duplicated_from [] keys
  | keep_last => rev (duplicated_from [] (rev keys))
  end.

(** [df[subset]]: the named columns, in the order asked. *)
Definition columns_named (subset : list string) (df : DataFrame) : DataFrame :=
  flat_map (fun n => filter (fun c => String.eqb (fst c) n) df) subset.

(** The keys rows are compared on: all columns, or those of [subset]. *)
Definition keys_of (subset : option (list string)) (df : DataFrame)
  : list row :=
  match subset with
  | None => rows df
  | Some cols => rows (columns_named cols df)
  end.

Definition duplicated (subset : option (list string)) (k : keep)
  (df : DataFrame) : list bool :=
  duplicated_keys k (keys_of subset df).

Definition drop_duplicates (subset : option (list string)) (k : keep)
  (df : DataFrame) : DataFrame :=
  select_rows (map negb (duplicated subset k df)) df.

(** [df.duplicated().any()]. *)
Definition duplicated_any (df : DataFrame) : bool :=
  existsb (fun b => b) (duplicated None keep_first df).

(** [df.isnull().sum().sum() > 0]. *)
Definition has_nulls (df : DataFrame) : bool :=
  existsb (fun c => existsb isnull (s_cells (snd c))) df.

(** *** ffill / bfill *)

Fixpoint ffill_from (last : cell) (l : list cell) : list cell :=
  match l with
  | [] => []
  | Some v :: l' => Some v :: ffill_from (Some v) l'
  | None :: l' => last :: ffill_from last l'
  end.

Definition ffill (s : Series) : Series :=
  mkSeries (s_dtype s) (ffill_from None (s_cells s)).

Definition bfill (s : Series) : Series :=
  mkSeries (s_dtype s) (rev (ffill_from None (rev (s_cells s)))).

Definition df_ffill (df : DataFrame) : DataFrame :=
  map (fun c => (fst c, ffill (snd c))) df.

Definition df_bfill (df : DataFrame) : DataFrame :=
  map (fun c => (fst c, bfill (snd c))) df.

(** *** fillna *)

(** Whether a column of dtype [d] stores [v] without a change of dtype. *)
Definition holds (d : dtype) (v : value) : bool :=
  match d, v with
  | object_, _ => true
  | float64, VFloat _ | float64, VInt _ => true
  | int64, VInt _ => true
  | bool_, VBool _ => true
  | datetime64, VTime _ => true
  | _, _ => false
  end.

Definition fill_cell (c : cell) (x : cell) : cell :=
  match x with None => c | Some _ => x end.

(** [series.fillna(c)]: every missing cell takes [c]; filling with NaN, or
    a column without missing cells, changes nothing; a value the dtype
    cannot hold turns the column into an object column.  An object
    column stays an object column, as in pandas 3 (pandas 2 can narrow
    one that a fill completes); the cells are the same in both. *)
Definition fillna (c : cell) (s : Series) : Series :=
  match c with
  | None => s
  | Some v =>
      if existsb isnull (s_cells s) then
        mkSeries (if holds (s_dtype s) v then s_dtype s else object_)
                 (map (fill_cell c) (s_cells s))
      else s
  end.

(** *** mode *)

Definition count (v : value) (l : list value) : nat :=
  List.length (filter (value_eqb v) l).

Definition max_count (l : list value) : nat :=
  fold_right Nat.max 0 (map (fun v => count v l) l).

(** Python's [<=] where it is defined: within numbers, within strings,
    within timestamps. *)
Definition value_leb (a b : value) : bool :=
  match a, b with
  | VStr s, VStr t => String.leb s t
  | VTime s, VTime t => Z.leb s t
  | _, _ =>
      match num_of a, num_of b with
      | Some p, Some q => Qle_bool p q
      | _, _ => false
      end
  end.

Definition is_str (v : value) : bool :=
  match v with VStr _ => true | _ => false end.
Definition is_time (v : value) : bool :=
  match v with VTime _ => true | _ => false end.
Definition is_num (v : value) : bool :=
  match num_of v with Some _ => true | None => false end.

Fixpoint insert_sorted (v : value) (l : list value) : list value :=
  match l with
  | [] => [v]
  | w :: l' => if value_leb v w then v :: l else w :: insert_sorted v l'
  end.

(** The modes are sorted: the values that are no texts first, in their
    order, then the texts, in theirs.  Where the values that are no
    texts cannot be compared with one another (numbers with timestamps)
    the TypeError is caught and the modes are left as found. *)
Definition sort_values (l : list value) : list value :=
  let others := filter (fun v => negb (is_str v)) l in
  let texts := filter is_str l in
  if forallb is_num others || forallb is_time others
  then (fold_right insert_sorted [] others
        ++ fold_right insert_sorted [] texts)%list
  else l.

(** [series.mode()] (dropna=True): the most frequent non-missing values. *)
Definition mode (s : Series) : list value :=
  let l := dropna (s_cells s) in
  sort_values (distinct (filter (fun v => count v l =? max_count l) l)).

(** *** Column assignment and the loops over columns *)

Definition get_col (name : string) (df : DataFrame) : option Series :=
  option_map snd (find (fun c => String.eqb (fst c) name) df).

(** [df[name] = s] for a column that exists. *)
Definition set_col (name : string) (s : Series) (df : DataFrame) : DataFrame :=
  map (fun c => if String.eqb (fst c) name then (fst c, s) else c) df.

(** [df[col] = f(df[col])]. *)
Definition update_col (f : Series -> Series) (df : DataFrame) (name : string)
  : DataFrame :=
  match get_col name df with
  | Some s => set_col name (f s) df
  | None => df
  end.

(** [for col in names: df[col] = f(col, df[col])]. *)
Definition for_columns (names : list string) (f : string -> Series -> Series)
  (df : DataFrame) : DataFrame :=
  fold_left (fun d n => update_col (f n) d n) names df.

Definition columns (df : DataFrame) : list string := map fst df.

(** [df.select_dtypes(include=["number"]).columns]. *)
Definition number_columns (df : DataFrame) : list string :=
  map fst (filter (fun c => match s_dtype (snd c) with
                            | int64 | float64 => true
                            | _ => false
                            end) df).

(** [df.columns[df.isnull().any()]]. *)
Definition columns_with_nulls (df : DataFrame) : list string :=
  map fst (filter (fun c => existsb isnull (s_cells (snd c))) df).

(* ================================================================== *)
(** ** The cleaning step of test_code4.py (lines 237-294) *)

(** Lines 249-253: the body of the loop of "Fill with column mode". *)
Definition fill_mode_column (s : Series) : Series :=
  if existsb isnull (s_cells s) then
    match mode s with
    | m :: _ => fillna (Some m) s
    | [] => s                      (* mode()[0] raised: except, pass *)
    end
  else s.

(** Lines 267-270: the body of the loop of "Custom fill per column".
    [type(df[col].dropna().iloc[0])(replacement)] raises when the column
    has no value or when the constructor refuses the text. *)
Definition custom_fill_column (replacement : string) (s : Series) : Series :=
  match dropna (s_cells s) with
  | v :: _ =>
      match construct py (type_of v) replacement with
      | Some c => fillna c s
      | None => fillna (Some (VStr replacement)) s
      end
  | [] => fillna (Some (VStr replacement)) s
  end.

(** Lines 260-264: the texts typed for the columns that have nulls; a
    blank input is not recorded. *)
Definition fill_values (text_input : string -> string) (df : DataFrame)
  : list (string * string) :=
  filter (fun kv => negb (String.eqb (snd kv) ""))
         (map (fun col => (col, text_input col)) (columns_with_nulls df)).

Inductive NullStrategy : Type :=
| DoNothing
| DropRowsAnyNull
| DropRowsAllNull
| FillMean
| FillMedian
| FillMode
| ForwardFill
| BackwardFill
| CustomPerColumn (text_input : string -> string) (apply_clicked : bool).

Inductive DuplicateStrategy : Type :=
| KeepAll
| DropKeepFirst
| DropKeepLast
| DropOnSubset (subset_cols : list string).

(** Lines 237-271. *)
Definition null_step (ns : NullStrategy) (df : DataFrame) : DataFrame :=
  match ns with
  | DoNothing => df
  | DropRowsAnyNull => df_dropna how_any df
  | DropRowsAllNull => df_dropna how_all df
  | FillMean =>
      for_columns (number_columns df)
        (fun _ s => fillna (mean_of py (dropna (s_cells s))) s) df
  | FillMedian =>
      for_columns (number_columns df)
        (fun _ s => fillna (median_of py (dropna (s_cells s))) s) df
  | FillMode =>
      for_columns (columns df) (fun _ s => fill_mode_column s) df
  | ForwardFill => df_ffill df
  | BackwardFill => df_bfill df
  | CustomPerColumn text_input apply_clicked =>
      let fv := fill_values text_input df in
      if apply_clicked then
        fold_left (fun d kv =>
                     update_col (custom_fill_column (snd kv)) d (fst kv))
                  fv df
      else df
  end.

(** Lines 287-294. *)
Definition dup_step (ds : DuplicateStrategy) (df : DataFrame) : DataFrame :=
  match ds with
  | KeepAll => df
  | DropKeepFirst => drop_duplicates None keep_first df
  | DropKeepLast => drop_duplicates None keep_last df
  | DropOnSubset subset_cols =>
      match subset_cols with
      | [] => df                                   (* [if subset_cols:] *)
      | _ => drop_duplicates (Some subset_cols) keep_first df
      end
  end.

(** The cleaning step as the script runs it: the frame [df] is rebound by
    the null branch, then by the duplicate branch. *)
Definition clean (ns : NullStrategy) (ds : DuplicateStrategy)
  (df0 : DataFrame) : DataFrame :=
  let df := null_step ns df0 in
  let df := dup_step ds df in
  df.

(* ================================================================== *)
(** ** The cleaning step of test_code1.py (lines 121-134) and
       piping_data.py (lines 115-128) *)

Inductive NullChoice : Type := DropRows | ForwardFillAll | BackwardFillAll.
Inductive DupChoice : Type := DropDuplicates | RetainDuplicates.

Definition null_choice_step (n : NullChoice) (df : DataFrame) : DataFrame :=
  match n with
  | DropRows => df_dropna how_any df
  | ForwardFillAll => df_ffill df
  | BackwardFillAll => df_bfill df
  end.

Definition clean1 (n : NullChoice) (d : DupChoice) (df0 : DataFrame)
  : DataFrame :=
  let df := null_choice_step n df0 in
  let df := match d with
            | DropDuplicates => drop_duplicates None keep_first df
            | RetainDuplicates => df
            end in
  df.

(** ** The cleaning step of test_code2.py (lines 79-103): duplicates are
       asked about first, and only when there are some; nulls are asked
       about afterwards, and only when there are some. *)
Definition clean2 (d : DupChoice) (n : NullChoice) (df0 : DataFrame)
  : DataFrame :=
  let df := if duplicated_any df0 then
              match d with
              | DropDuplicates => drop_duplicates None keep_first df0
              | RetainDuplicates => df0
              end
            else df0 in
  let df := if has_nulls df then null_choice_step n df else df in
  df.

End Pipeline.

(* ================================================================== *)
(** ** Charts *)

Inductive ChartKind : Type := Bar | Line | Scatter | Histogram | Box.

(** A call into plotly express: the kind and the axes handed over. *)
Record figure : Type := mkFigure {
  fig_kind : ChartKind;
  fig_x : option string;
  fig_y : option string;
  fig_color : option string
}.

(** What becomes of one chart: the call into plotly express is made and
    its figure passed to [st.plotly_chart]; or a warning is shown in its
    place; or indexing the frame raises before any call is made. *)
Inductive shown : Type :=
| Plot (fig : figure)
| Warning (msg : string)
| KeyError.

(** [st.selectbox(label, options)]: the option picked, the first one by
    default, and None when there is nothing to pick from. *)
Definition selectbox (options : list string) (picked : nat) : option string :=
  match options with
  | [] => None
  | first :: _ => Some (nth picked options first)
  end.

(** *** The chart loop of test_code4.py (lines 373-409), which
        test_code1.py and test_code2.py share *)

(** One entry of [chart_configs]; an axis left out is the text "None". *)
Record chart_config : Type := mkConfig {
  cfg_type : ChartKind;
  cfg_x : string;
  cfg_y : string;
  cfg_color : string
}.

(** The picks made in the four select boxes of one chart. *)
Record picks : Type := mkPicks {
  pick_type : ChartKind;
  pick_x : nat;
  pick_y : nat;
  pick_color : nat
}.

Definition axis_options (df : DataFrame) : list string :=
  "None" :: columns df.

Definition pick_axis (df : DataFrame) (i : nat) : string :=
  match selectbox (axis_options df) i with
  | Some a => a
  | None => "None"
  end.

(** Lines 378-384. *)
Definition configure (df : DataFrame) (p : picks) : chart_config :=
  mkConfig (pick_type p) (pick_axis df (pick_x p)) (pick_axis df (pick_y p))
           (pick_axis df (pick_color p)).

Definition specified (axis : string) : bool := negb (String.eqb axis "None").

(** Lines 396-409, for the chart at position [n] (counted from 0). *)
Definition render_chart (n : nat) (config : chart_config) : shown :=
  if specified (cfg_x config) && specified (cfg_y config) then
    Plot (mkFigure (cfg_type config) (Some (cfg_x config)) (Some (cfg_y config))
                   (if specified (cfg_color config)
                    then Some (cfg_color config) else None))
  else
    Warning ("Chart " ++ str_of_int (Z.of_nat (n + 1))
             ++ " skipped: x or y axis not specified.").

Fixpoint render_from (n : nat) (configs : list chart_config) : list shown :=
  match configs with
  | [] => []
  | c :: configs' => render_chart n c :: render_from (S n) configs'
  end.

Definition render_charts (configs : list chart_config) : list shown :=
  render_from 0 configs.

(** *** The plots of piping_data.py (lines 141-193) *)

(** [df.select_dtypes(include=['float64', 'int64']).columns]. *)
Definition numeric_cols (df : DataFrame) : list string :=
  map fst (filter (fun c => match s_dtype (snd c) with
                            | int64 | float64 => true
                            | _ => false
                            end) df).

(** [df.select_dtypes(include=['object', 'category']).columns]. *)
Definition categorical_cols (df : DataFrame) : list string :=
  map fst (filter (fun c => match s_dtype (snd c) with
                            | object_ => true
                            | _ => false
                            end) df).

Definition has_column (df : DataFrame) (name : option string) : bool :=
  match name with
  | Some n => existsb (String.eqb n) (columns df)
  | None => false
  end.

(** One pass of the loop body, lines 158-193: the plot type and the
    picks made in its select boxes. *)
Definition render_plot (df : DataFrame) (p : picks) : shown :=
  match pick_type p with
  | Histogram =>
      let x_col := selectbox (numeric_cols df) (pick_x p) in
      Plot (mkFigure Histogram x_col None None)
  | Box =>
      let y_col := selectbox (numeric_cols df) (pick_y p) in
      Plot (mkFigure Box None y_col None)
  | Bar =>
      let cat_col := selectbox (categorical_cols df) (pick_x p) in
      (* df[cat_col].value_counts() *)
      if has_column df cat_col
      then Plot (mkFigure Bar cat_col (Some "count") None)
      else KeyError
  | Scatter =>
      let x_col := selectbox (numeric_cols df) (pick_x p) in
      let y_col := selectbox (numeric_cols df) (pick_y p) in
      let color_col :=
        selectbox ("None" :: categorical_cols df) (pick_color p) in
      match color_col with
      | Some c =>
          if specified c then
            (* color=df[color_col] *)
            if has_column df color_col
            then Plot (mkFigure Scatter x_col y_col color_col)
            else KeyError
          else Plot (mkFigure Scatter x_col y_col None)
      | None => Plot (mkFigure Scatter x_col y_col None)
      end
  | Line =>
      let x_col := selectbox (columns df) (pick_x p) in
      let y_col := selectbox (numeric_cols df) (pick_y p) in
      (* df.sort_values(by=x_col) *)
      if has_column df x_col
      then Plot (mkFigure Line x_col y_col None)
      else KeyError
  end.

(* ================================================================== *)
(** ** A small runtime, for running the definitions on examples

    It stands in for the library on the inputs of the examples below: it
    accepts as dates the texts of the shape dddd-dd-dd, builds integers
    and floats from texts made of decimal digits only, and computes mean
    and median exactly.  The theorems of this file hold for every
    runtime; only the examples use this one. *)

Definition is_digit (c : ascii) : bool := (48 <=? code c) && (code c <=? 57).

Definition is_dash (c : ascii) : bool := code c =? 45.

Definition looks_like_iso_date (s : string) : bool :=
  match s with
  | String y1 (String y2 (String y3 (String y4 (String h1
      (String m1 (String m2 (String h2 (String d1 (String d2 EmptyString)))))))))
    => is_digit y1 && is_digit y2 && is_digit y3 && is_digit y4 && is_dash h1
       && is_digit m1 && is_digit m2 && is_dash h2 && is_digit d1 && is_digit d2
  | _ => false
  end.

Fixpoint digits_value (acc : Z) (s : string) : option Z :=
  match s with
  | EmptyString => Some acc
  | String c s' =>
      if is_digit c
      then digits_value (10 * acc + Z.of_nat (code c - 48))%Z s'
      else None
  end.

Definition int_of_text (s : string) : option Z :=
  match s with
  | EmptyString => None
  | _ => digits_value 0%Z s
  end.

Definition numbers (l : list value) : list Q :=
  flat_map (fun v => match num_of v with Some q => [q] | None => [] end) l.

Definition exact_mean (l : list value) : cell :=
  match numbers l with
  | [] => None
  | qs => Some (VFloat (Qred (fold_right Qplus 0%Q qs
                              / inject_Z (Z.of_nat (List.length qs)))))
  end.

Fixpoint insert_Q (q : Q) (l : list Q) : list Q :=
  match l with
  | [] => [q]
  | r :: l' => if Qle_bool q r then q :: l else r :: insert_Q q l'
  end.

Definition exact_median (l : list value) : cell :=
  let qs := fold_right insert_Q [] (numbers l) in
  let n := List.length qs in
  match qs with
  | [] => None
  | _ =>
      if Nat.even n
      then Some (VFloat (Qred ((nth (n / 2 - 1) qs 0%Q + nth (n / 2) qs 0%Q)
                               / 2)))
      else Some (VFloat (nth (n / 2) qs 0%Q))
  end.

Definition demo_runtime : runtime := {|
  parses_datetime := fun v =>
    match v with
    | VStr s => looks_like_iso_date s
    | VTime _ => true
    | _ => false
    end;
  construct := fun t s =>
    match t with
    | TStr => Some (Some (VStr s))
    | TBool => Some (Some (VBool (negb (String.eqb s ""))))
    | TInt => option_map (fun z => Some (VInt z)) (int_of_text s)
    | TFloat => option_map (fun z => Some (VFloat (inject_Z z))) (int_of_text s)
    | TTimestamp => None
    end;
  str_of_float := fun q =>
    str_of_int (Qnum q) ++ "/" ++ str_of_int (Zpos (Qden q));
  str_of_time := fun t => str_of_int t;
  mean_of := exact_mean;
  median_of := exact_median
|}.

(** A generator that always draws 0: [sample] then takes the values in
    their order. *)
Definition first_draws : rng := fun _ => 0.

(** The same runtime with a parser that accepts every value. *)
Definition lenient_runtime : runtime := {|
  parses_datetime := fun _ => true;
  construct := construct demo_runtime;
  str_of_float := str_of_float demo_runtime;
  str_of_time := str_of_time demo_runtime;
  mean_of := exact_mean;
  median_of := exact_median
|}.

Definition text_column (l : list cell) : Series := mkSeries object_ l.

Definition str (s : string) : cell := Some (VStr s).

(** *** Columns and frames used in the examples *)

(** A column of JSON nulls. *)
Definition all_missing : Series := text_column [None; None].

(** A column with no rows (what is left of a text column when every row
    was dropped). *)
Definition no_rows : Series := text_column [].

Definition whole_numbers : Series := text_column [str "1"; str "2"; str "3"].

Definition with_fraction : Series :=
  text_column [str "1"; str "2"; str "3.5"].

Definition dates : Series :=
  text_column [str "2020-01-01"; str "2020-02-01"].

(** One date and one missing cell. *)
Definition dated_with_gap : Series := text_column [str "2020-01-01"; None].

(** The two dates of [dates], and a missing cell after them. *)
Definition dates_then_gap : Series :=
  text_column [str "2020-01-01"; str "2020-02-01"; None].

(** Thirty rows in two colours, and the same followed by eleven missing
    cells. *)
Definition thirty_colours : Series :=
  text_column (repeat (str "red") 15 ++ repeat (str "blue") 15)%list.

Definition thirty_colours_then_gaps : Series :=
  text_column (repeat (str "red") 15 ++ repeat (str "blue") 15
               ++ repeat None 11)%list.

(** Fifty dates and a word, with a missing cell before them or after
    them: fifty-two rows, fifty-one values, fifty of them sampled. *)
Definition gap_first : Series :=
  text_column (None :: repeat (str "2020-01-01") 50 ++ [str "soon"])%list.

Definition gap_last : Series :=
  text_column (repeat (str "2020-01-01") 50 ++ [str "soon"; None])%list.

(** Two generators written differently that produce the same draws. *)
Definition str_value (s : string) : value := VStr s.

Definition draws_50 : rng := fun _ => 50.

Definition draws_50_again : rng := fun k => 50 + (k - k).

(** Twenty-one rows holding one and the same word. *)
Definition reds : Series := text_column (repeat (str "red") 21).

Definition all_nan : Series := mkSeries float64 [None; None].

Definition fifty_dates_and_a_word : Series :=
  text_column (repeat (str "2020-01-01") 50 ++ [str "soon"])%list.

(** Three rows with the same id; the last one misses its value. *)
Definition repeated_id : DataFrame :=
  [("id", mkSeries int64 [Some (VInt 1); Some (VInt 1); Some (VInt 1)]);
   ("val", mkSeries float64
             [Some (VFloat 10); Some (VFloat 10); None])].

Definition two_equal_rows : DataFrame :=
  [("id", mkSeries int64 [Some (VInt 1); Some (VInt 1)]);
   ("val", mkSeries float64 [Some (VFloat 10); Some (VFloat 10)])].

Definition one_row : DataFrame :=
  [("id", mkSeries int64 [Some (VInt 1)]);
   ("val", mkSeries float64 [Some (VFloat 10)])].

(** The frame of the cleaning scenario of the specification:
    id = [1, 2, 2, NA], val = [10, 20, 20, 30]. *)
Definition scenario : DataFrame :=
  [("id", mkSeries float64
            [Some (VFloat 1); Some (VFloat 2); Some (VFloat 2); None]);
   ("val", mkSeries int64
             [Some (VInt 10); Some (VInt 20); Some (VInt 20); Some (VInt 30)])].

Definition scenario_cleaned : DataFrame :=
  [("id", mkSeries float64 [Some (VFloat 1); Some (VFloat 2)]);
   ("val", mkSeries int64 [Some (VInt 10); Some (VInt 20)])].

(** A column of answers. *)
Definition yes_no : Series := text_column [str "Yes"; str "no"].

(** The columns of [scenario] and of [gappy]. *)
Definition scenario_id : Series :=
  mkSeries float64 [Some (VFloat 1); Some (VFloat 2); Some (VFloat 2); None].

Definition gappy_k : Series :=
  mkSeries object_ [Some (VInt 7); None; Some (VInt 7); Some (VInt 8)].

(** A thousand rows, two colours. *)
Definition colours : Series :=
  text_column (repeat (str "red") 600 ++ repeat (str "blue") 400)%list.

(** A frame with a text column only, and one with a number column only. *)
Definition text_only : DataFrame := [("name", text_column [str "a"])].

Definition numbers_only : DataFrame :=
  [("n", mkSeries int64 [Some (VInt 1)])].

(** A column with a gap, to be filled. *)
Definition gappy : DataFrame :=
  [("k", mkSeries object_ [Some (VInt 7); None; Some (VInt 7); Some (VInt 8)])].

Definition type_five (col : string) : string :=
  if String.eqb col "k" then "5" else "".

(** ** The claims in the words of the specification, for comparison *)

Fixpoint has_dot (s : string) : bool :=
  match s with
  | EmptyString => false
  | String c s' => (code c =? 46) || has_dot s'
  end.

(** "Float if at least one value has a fractional part, Integer if none
    does", read on the texts of a column. *)
Definition spec_numeric_text_type (s : Series) : SemanticType :=
  if existsb (fun v => match v with VStr t => has_dot t | _ => false end)
             (dropna (s_cells s))
  then Float else Integer.

(** The sample the specification describes: "at most 50 non-missing
    values, or all of them if fewer". *)
Definition spec_sample_size (s : Series) : nat :=
  Nat.min 50 (List.length (dropna (s_cells s))).

(** The columns that get past rules 1 to 6 of [suggest_dtype] and so reach
    the test on the number of distinct values. *)
Definition reaches_category_rule (py : runtime) (g : rng) (s : Series) : bool :=
  negb (is_numeric_dtype s) && negb (is_datetime64_any_dtype s)
  && negb (is_bool_dtype s) && negb (try_to_datetime py g s)
  && negb (all_isnumeric py s) && negb (all_bool_words py s).

(** What the loops over columns come to, column by column: [on_column]
    is one assignment [df[name] = f(df[name])] seen from a column, and
    [on_columns] a whole loop, each column being rewritten by the first
    item that names it. *)
Definition on_column (name : string) (f : Series -> Series)
  (c : string * Series) : string * Series :=
  if String.eqb (fst c) name then (fst c, f (snd c)) else c.

Definition on_columns {A : Type} (key : A -> string)
  (F : A -> Series -> Series) (items : list A) (c : string * Series)
  : string * Series :=
  match find (fun a => String.eqb (key a) (fst c)) items with
  | Some a => (fst c, F a (snd c))
  | None => c
  end.

(* ================================================================== *)
(** ** More of test_code4.py: the metadata table, the duplicate count,
       the type select boxes, the conversions and the chart grid *)

(** What the "Sample Value" entry of a column shows (line 142):
    [df[col].dropna().iloc[0] if df[col].notna().any() else "NaN"].
    [IndexError] is what [iloc[0]] raises on an empty series. *)
Inductive sample_shown : Type :=
| SampleValue (v : value)
| SampleText (s : string)
| IndexError.

Definition sample_value (s : Series) : sample_shown :=
  if existsb (fun c => negb (isnull c)) (s_cells s) then
    match dropna (s_cells s) with
    | v :: _ => SampleValue v
    | [] => IndexError
    end
  else SampleText "NaN".

(** [df.duplicated().sum()] (lines 94 and 275): the number shown as
    "Total duplicate rows detected". *)
Definition num_duplicates (df : DataFrame) : nat :=
  List.length (filter (fun b => b) (duplicated None keep_first df)).

(** The options of the type select box (line 341). *)
Definition type_options : list string :=
  ["int64"; "float64"; "object"; "datetime64[ns]"; "bool"; "category"].

(** [l.index(x)]: [None] stands for the ValueError of a missing item. *)
Fixpoint index_of (x : string) (l : list string) : option nat :=
  match l with
  | [] => None
  | y :: l' =>
      if String.eqb y x then Some 0 else option_map S (index_of x l')
  end.

(** Lines 342-343: [options.index(suggested_type) if suggested_type in
    options else 2]. *)
Definition default_type_index (suggested_type : string) : option nat :=
  if str_in suggested_type type_options
  then index_of suggested_type type_options
  else Some 2.

(** The dictionary of the conversion to bool (line 354). *)
Definition bool_map : list (string * bool) :=
  [("true", true); ("false", false); ("yes", true); ("no", false);
   ("1", true); ("0", false)].

Fixpoint dict_get (k : string) (d : list (string * bool)) : option bool :=
  match d with
  | [] => None
  | (k', b) :: d' => if String.eqb k' k then Some b else dict_get k d'
  end.

(** Lines 353-355: [astype(str).str.lower().map({...})], cell by cell.  A
    text that is no key of the dictionary maps to a missing cell; so does
    a missing cell, whose text ("nan" or "None") is no key. *)
Definition to_boolean_cell (py : runtime) (c : cell) : cell :=
  match c with
  | Some v => option_map VBool (dict_get (lower (py_str py v)) bool_map)
  | None => None
  end.

Definition to_boolean (py : runtime) (l : list cell) : list cell :=
  map (to_boolean_cell py) l.

(** Lines 390-409 as written: [for i in range(0, len(chart_configs), 2)]
    and, inside, [for j in range(2)] guarded by
    [i + j < len(chart_configs)]. *)
Definition range_by_two (n : nat) : list nat :=
  map (fun k => 2 * k) (seq 0 ((n + 1) / 2)).

Definition chart_grid (configs : list chart_config) : list shown :=
  flat_map
    (fun i =>
       flat_map
         (fun j =>
            if i + j <? List.length configs then
              match nth_error configs (i + j) with
              | Some config => [render_chart (i + j) config]
              | None => []
              end
            else [])
         [0; 1])
    (range_by_two (List.length configs)).

(** A cell of a filled column against the cell it comes from: it is the
    same cell, unless that one was missing. *)
Definition kept_or_filled (before after : cell) : Prop :=
  before = None \/ after = before.

(** The strategies of the null step that fill cells (they drop no row). *)
Definition is_fill (ns : NullStrategy) : bool :=
  match ns with
  | DropRowsAnyNull | DropRowsAllNull => false
  | _ => true
  end.

(** Opens [suggest_dtype] down to the stored dtype. *)
Ltac open_dtype_tests :=
  unfold suggest_dtype, is_numeric_dtype, is_integer_dtype,
    is_datetime64_any_dtype, is_bool_dtype.

(* ================================================================== *)
(** * Properties of the type inference *)

Section Inference.

Variable py : runtime.

Lemma draw_ext {A : Type} (g1 g2 : rng) (n : nat) :
  (forall k, g1 k = g2 k) ->
  forall (k : nat) (l : list A), draw g1 k n l = draw g2 k n l.
Proof.
  intros Hg. induction n as [|n IH]; intros k l; simpl.
  - reflexivity.
  - destruct l as [|x l']; [reflexivity|].
    rewrite (Hg k). f_equal. apply IH.
Qed.

Lemma sample_ext {A : Type} (g1 g2 : rng) (n : nat) (l : list A) :
  (forall k, g1 k = g2 k) -> sample g1 n l = sample g2 n l.
Proof.
  intros Hg. unfold sample.
  destruct (List.length l <? n); [reflexivity|].
  f_equal. now apply draw_ext.
Qed.

(** Asking [sample] for more values than there are raises. *)
Lemma sample_too_many {A : Type} (g : rng) (n : nat) (l : list A) :
  List.length l < n -> sample g n l = None.
Proof.
  intros H. unfold sample.
  apply Nat.ltb_lt in H. now rewrite H.
Qed.

Lemma sample_enough {A : Type} (g : rng) (n : nat) (l : list A) :
  n <= List.length l -> sample g n l = Some (draw g 0 n l).
Proof.
  intros H. unfold sample.
  destruct (List.length l <? n) eqn:E; [|reflexivity].
  apply Nat.ltb_lt in E. lia.
Qed.

Lemma remove_nth_length {A : Type} (m : list A) :
  forall i, i < List.length m ->
            List.length (remove_nth i m) = List.length m - 1.
Proof.
  induction m as [|y m IHm]; intros i Hi; simpl in *; [lia|].
  destruct i; simpl; [lia|].
  rewrite IHm by lia. lia.
Qed.

(** A sample that succeeds has the size asked for. *)
Lemma draw_length {A : Type} (g : rng) (n : nat) :
  forall (k : nat) (l : list A),
    n <= List.length l -> List.length (draw g k n l) = n.
Proof.
  induction n as [|n IH]; intros k l H; [reflexivity|].
  destruct l as [|x l']; [simpl in H; lia|].
  cbn [draw List.length]. f_equal. apply IH.
  rewrite remove_nth_length.
  - cbn [List.length] in *. lia.
  - apply Nat.mod_upper_bound. discriminate.
Qed.

Lemma dropna_no_nulls (l : list cell) :
  existsb isnull l = false -> List.length (dropna l) = List.length l.
Proof.
  induction l as [|[v|] l IH]; simpl; intros H.
  - reflexivity.
  - now rewrite IH.
  - discriminate.
Qed.

(** On a column without missing cells the script asks for the sample the
    specification describes. *)
Lemma sample_size_without_gaps (s : Series) :
  existsb isnull (s_cells s) = false -> sample_size s = spec_sample_size s.
Proof.
  intros H. unfold sample_size, spec_sample_size, len.
  now rewrite dropna_no_nulls.
Qed.

(** The try block raises (and the rule is passed over) as soon as the
    column has fewer non-missing values than the size asked of [sample]. *)
Lemma try_to_datetime_raises (g : rng) (s : Series) :
  List.length (dropna (s_cells s)) < sample_size s ->
  try_to_datetime py g s = false.
Proof.
  intros H. unfold try_to_datetime.
  now rewrite sample_too_many.
Qed.

(** Without missing cells the sample is drawn, it has the size the
    specification describes, and the rule holds exactly when every
    sampled value parses. *)
Lemma try_to_datetime_sampled (g : rng) (s : Series) :
  existsb isnull (s_cells s) = false ->
  exists smp,
    sample g (sample_size s) (dropna (s_cells s)) = Some smp
    /\ List.length smp = spec_sample_size s
    /\ try_to_datetime py g s = forallb (parses_datetime py) smp.
Proof.
  intros Hn.
  assert (H : sample_size s <= List.length (dropna (s_cells s))).
  { rewrite (sample_size_without_gaps s Hn). apply Nat.le_min_r. }
  exists (draw g 0 (sample_size s) (dropna (s_cells s))).
  unfold try_to_datetime. rewrite (sample_enough g _ _ H).
  repeat split.
  rewrite <- (sample_size_without_gaps s Hn). now apply draw_length.
Qed.

Lemma integer_iff_integer_dtype (g : rng) (s : Series) :
  suggest_dtype py g s = Integer <-> s_dtype s = int64.
Proof.
  open_dtype_tests.
  destruct (s_dtype s); split; intros H; try reflexivity; try discriminate.
  destruct (try_to_datetime py g s); [discriminate|].
  destruct (all_isnumeric py s); [discriminate|].
  destruct (all_bool_words py s); [discriminate|].
  destruct (category_rule s); discriminate.
Qed.

(** What the script does on a column without any non-missing value. *)
Lemma suggest_dtype_of_no_values (g : rng) (s : Series) :
  dropna (s_cells s) = [] ->
  suggest_dtype py g s =
    match s_dtype s with
    | int64 => Integer
    | float64 | bool_ => Float
    | datetime64 => Timestamp
    | object_ => if len s =? 0 then Timestamp else Float
    end.
Proof.
  intros Hv.
  open_dtype_tests.
  destruct (s_dtype s); try reflexivity.
  unfold try_to_datetime, all_isnumeric, sample_size, sample.
  rewrite Hv. cbn [List.length forallb].
  destruct (len s) as [|n] eqn:El.
  - reflexivity.
  - replace (0 <? Nat.min 50 (S n)) with true; [reflexivity|].
    symmetry. apply Nat.ltb_lt. lia.
Qed.

(** C1, as amended.  A column with zero non-missing values never resolves
    to Text, and nothing is raised on the way.  A numeric or timestamp
    dtype decides (an all-NaN float column gives Float).  A generic
    column gives Timestamp or Float: Timestamp when it has no rows,
    because the empty sample parses; otherwise the timestamp test or,
    failing that, the all-digit test, which holds of no values. *)
Theorem suggest_dtype_without_values (g : rng) (s : Series) :
  dropna (s_cells s) = [] ->
  suggest_dtype py g s <> Text
  /\ match s_dtype s with
     | int64 => suggest_dtype py g s = Integer
     | float64 | bool_ => suggest_dtype py g s = Float
     | datetime64 => suggest_dtype py g s = Timestamp
     | object_ =>
         (len s = 0 -> suggest_dtype py g s = Timestamp)
         /\ (suggest_dtype py g s = Timestamp
             \/ suggest_dtype py g s = Float)
     end.
Proof.
  intros Hv. rewrite (suggest_dtype_of_no_values g s Hv).
  destruct (s_dtype s); try (split; [discriminate|reflexivity]).
  destruct (len s =? 0) eqn:E.
  - split; [discriminate|]. split; [reflexivity|now left].
  - split; [discriminate|]. split; [|now right].
    intros H0. rewrite H0 in E. discriminate.
Qed.

(** C2, as amended.  A generic column whose values are all-digit texts
    once their first full stop is removed resolves to Float, with or
    without a fractional value, unless its sample parses as timestamps;
    it never resolves to Integer, which only an integer dtype gives. *)
Theorem numeric_text_is_float (g : rng) (s : Series) :
  s_dtype s = object_ ->
  all_isnumeric py s = true ->
  suggest_dtype py g s = (if try_to_datetime py g s then Timestamp else Float)
  /\ suggest_dtype py g s <> Integer.
Proof.
  intros Hd Hn. split.
  - open_dtype_tests.
    rewrite Hd, Hn. reflexivity.
  - intros H. apply integer_iff_integer_dtype in H. congruence.
Qed.

(** C4, at the failing input.  For the column holding one date and one
    missing cell, the script asks [sample] for min(50, 2) = 2 values where
    the specification describes a sample of the 1 non-missing value; the
    call raises, the rule is passed over whatever the parser accepts, and
    the column resolves to Text. *)
Theorem timestamp_rule_passed_over (g : rng) :
  sample_size dated_with_gap = 2
  /\ spec_sample_size dated_with_gap = 1
  /\ try_to_datetime py g dated_with_gap = false
  /\ suggest_dtype py g dated_with_gap = Text.
Proof.
  repeat split.
Qed.

(** C8.  No division takes place: the threshold test is a product and a
    comparison, false on a column without rows.  A column that gets to
    the test resolves to Category exactly when its distinct non-missing
    values number less than 5% of its rows (20 * k < n), and to Text
    otherwise. *)
Theorem category_rule_threshold (g : rng) (s : Series) :
  (len s = 0 -> category_rule s = false)
  /\ (category_rule s = true <-> 20 * nunique s < len s)
  /\ (reaches_category_rule py g s = true ->
      (suggest_dtype py g s = Category <-> 20 * nunique s < len s)
      /\ (suggest_dtype py g s = Text <-> len s <= 20 * nunique s)).
Proof.
  assert (Hrule : category_rule s = true <-> 20 * nunique s < len s).
  { unfold category_rule. apply Nat.ltb_lt. }
  split; [|split].
  - intros H0. unfold category_rule. rewrite H0. apply Nat.ltb_ge. lia.
  - exact Hrule.
  - intros Hr. unfold reaches_category_rule in Hr.
    repeat (apply andb_prop in Hr; destruct Hr as [Hr ?]).
    repeat match goal with
           | H : negb _ = true |- _ => apply negb_true_iff in H
           end.
    unfold suggest_dtype.
    repeat match goal with
           | H : _ = false |- _ => rewrite H
           end.
    destruct (category_rule s) eqn:Ec.
    + assert (Hlt := proj1 Hrule eq_refl).
      split; split; intros H'; try reflexivity; try discriminate;
        [exact Hlt | lia].
    + assert (Hge : len s <= 20 * nunique s).
      { destruct (Nat.le_gt_cases (len s) (20 * nunique s)) as [Hle|Hgt];
          [exact Hle|].
        apply Hrule in Hgt. discriminate. }
      split; split; intros H'; try reflexivity; try discriminate;
        [lia | exact Hge].
Qed.

(** C9, as amended.  Two runs with the same seed (generators that produce
    the same draws) return the same type on columns that agree in their
    stored dtype, their number of rows and their non-missing values in
    order.  The non-missing values alone do not decide: the number of
    rows, missing ones included, enters through [min(50, len(series))]
    and through [0.05 * len(series)]. *)
Theorem suggest_dtype_deterministic (g1 g2 : rng) (s1 s2 : Series) :
  (forall k, g1 k = g2 k) ->
  s_dtype s1 = s_dtype s2 ->
  len s1 = len s2 ->
  dropna (s_cells s1) = dropna (s_cells s2) ->
  suggest_dtype py g1 s1 = suggest_dtype py g2 s2.
Proof.
  intros Hg Hd Hl Hv.
  open_dtype_tests.
  unfold try_to_datetime, sample_size, all_isnumeric, all_bool_words,
    category_rule, nunique.
  rewrite Hd, Hl, Hv.
  rewrite (sample_ext g1 g2 _ _ Hg).
  reflexivity.
Qed.

End Inference.

(* ================================================================== *)
(** * Properties of the fills *)

Section Fills.

Variable py : runtime.

Lemma fill_cell_missing (l : list cell) : map (fill_cell None) l = l.
Proof.
  induction l as [|[v|] l IH]; simpl; congruence.
Qed.

Lemma fill_cell_no_nulls (c : cell) (l : list cell) :
  existsb isnull l = false -> map (fill_cell c) l = l.
Proof.
  induction l as [|[v|] l IH]; simpl; intros H.
  - reflexivity.
  - now rewrite IH.
  - discriminate.
Qed.

(** Whatever happens to the dtype, the cells of [fillna c s] are those of
    [s] with [c] in the place of every missing cell. *)
Lemma fillna_cells (c : cell) (s : Series) :
  s_cells (fillna c s) = map (fill_cell c) (s_cells s).
Proof.
  unfold fillna. destruct c as [v|].
  - destruct (existsb isnull (s_cells s)) eqn:E.
    + reflexivity.
    + symmetry. now apply fill_cell_no_nulls.
  - symmetry. apply fill_cell_missing.
Qed.

(** *** The most frequent value *)

Lemma max_of_ge {A : Type} (f : A -> nat) (m : list A) (w : A) :
  In w m -> f w <= fold_right Nat.max 0 (map f m).
Proof.
  induction m as [|x m IH]; simpl; intros H; [contradiction|].
  destruct H as [->|H]; [lia|].
  specialize (IH H). lia.
Qed.

Lemma max_of_attained {A : Type} (f : A -> nat) (m : list A) :
  m <> [] -> exists v, In v m /\ f v = fold_right Nat.max 0 (map f m).
Proof.
  induction m as [|x m IH]; intros Hne; [congruence|].
  destruct m as [|y m'].
  - exists x. simpl. split; [auto|lia].
  - destruct IH as (v & Hin & Hv); [discriminate|].
    cbn [map fold_right] in *.
    destruct (Nat.le_gt_cases (f x) (f v)) as [Hle|Hgt].
    + exists v. split; [right; exact Hin|]. lia.
    + exists x. split; [left; reflexivity|]. lia.
Qed.

Lemma max_count_ge (l : list value) (w : value) :
  In w l -> count w l <= max_count l.
Proof.
  intros H. unfold max_count.
  exact (max_of_ge (fun v => count v l) l w H).
Qed.

Lemma In_distinct (l : list value) (v : value) :
  In v (distinct l) -> In v l.
Proof.
  induction l as [|x l IH]; simpl; [tauto|].
  intros [H|H]; [auto|].
  apply filter_In in H. right. apply IH. tauto.
Qed.

Lemma In_insert_sorted (v x : value) (l : list value) :
  In x (insert_sorted v l) <-> x = v \/ In x l.
Proof.
  induction l as [|w l IH]; simpl.
  - intuition congruence.
  - destruct (value_leb v w); simpl.
    + intuition congruence.
    + rewrite IH. intuition congruence.
Qed.

Lemma In_sorted (l : list value) (x : value) :
  In x (fold_right insert_sorted [] l) <-> In x l.
Proof.
  induction l as [|v l IH]; simpl; [tauto|].
  rewrite In_insert_sorted, IH. intuition congruence.
Qed.

Lemma In_sort_values (l : list value) (x : value) :
  In x (sort_values l) <-> In x l.
Proof.
  unfold sort_values.
  destruct (forallb is_num (filter (fun v => negb (is_str v)) l)
            || forallb is_time (filter (fun v => negb (is_str v)) l));
    [|tauto].
  rewrite in_app_iff, !In_sorted, !filter_In.
  destruct (is_str x); cbn [negb]; intuition discriminate.
Qed.

Lemma sort_values_nil (l : list value) : sort_values l = [] -> l = [].
Proof.
  intros H. destruct l as [|v l]; [reflexivity|].
  assert (Hin : In v (sort_values (v :: l))).
  { apply In_sort_values. left. reflexivity. }
  rewrite H in Hin. contradiction.
Qed.

(** [mode()[0]] is a value of the column that no value of the column
    outnumbers. *)
Lemma mode_head (s : Series) (m : value) (rest : list value) :
  mode s = m :: rest ->
  In m (dropna (s_cells s))
  /\ forall w, In w (dropna (s_cells s)) ->
               count w (dropna (s_cells s)) <= count m (dropna (s_cells s)).
Proof.
  unfold mode. intros H.
  assert (Hin : In m (sort_values
            (distinct (filter (fun v => count v (dropna (s_cells s))
                                        =? max_count (dropna (s_cells s)))
                              (dropna (s_cells s)))))).
  { rewrite H. left. reflexivity. }
  apply In_sort_values, In_distinct, filter_In in Hin.
  destruct Hin as [Hin Hmax]. apply Nat.eqb_eq in Hmax.
  split; [exact Hin|].
  intros w Hw. rewrite Hmax. now apply max_count_ge.
Qed.

(** [mode()] is empty only on a column without values. *)
Lemma mode_nil (s : Series) : mode s = [] -> dropna (s_cells s) = [].
Proof.
  unfold mode. intros H. apply sort_values_nil in H.
  destruct (dropna (s_cells s)) as [|v l] eqn:E; [reflexivity|].
  destruct (max_of_attained (fun x => count x (v :: l)) (v :: l))
    as (x & Hin & Hx); [discriminate|].
  assert (Hf : In x (filter (fun y => count y (v :: l) =? max_count (v :: l))
                            (v :: l))).
  { apply filter_In. split; [exact Hin|]. apply Nat.eqb_eq. exact Hx. }
  destruct (filter (fun y => count y (v :: l) =? max_count (v :: l)) (v :: l))
    as [|y f']; [contradiction|].
  simpl in H. discriminate.
Qed.

Lemma mode_of_no_values (s : Series) : dropna (s_cells s) = [] -> mode s = [].
Proof.
  unfold mode. intros ->. reflexivity.
Qed.

(** *** The loops over columns *)

Lemma on_column_absent (name : string) (f : Series -> Series)
  (df : DataFrame) :
  ~ In name (columns df) -> map (on_column name f) df = df.
Proof.
  induction df as [|c df IH]; simpl; intros H; [reflexivity|].
  unfold on_column at 1.
  destruct (String.eqb (fst c) name) eqn:E.
  - apply String.eqb_eq in E. tauto.
  - rewrite IH by tauto. reflexivity.
Qed.

Lemma set_col_absent (name : string) (s : Series) (df : DataFrame) :
  ~ In name (columns df) -> set_col name s df = df.
Proof.
  induction df as [|c df IH]; simpl; intros H; [reflexivity|].
  destruct (String.eqb (fst c) name) eqn:E.
  - apply String.eqb_eq in E. tauto.
  - rewrite IH by tauto. reflexivity.
Qed.

(** With column names that are all different, the assignment
    [df[name] = f(df[name])] rewrites the column called [name] and no
    other. *)
Lemma update_col_map (f : Series -> Series) (name : string) (df : DataFrame) :
  NoDup (columns df) -> update_col f df name = map (on_column name f) df.
Proof.
  unfold update_col, get_col.
  induction df as [|c df IH]; intros Hnd; [reflexivity|].
  simpl in Hnd. inversion Hnd as [|? ? Hnotin Hnd']; subst.
  cbn [find map]. unfold on_column at 1.
  destruct (String.eqb (fst c) name) eqn:E.
  - cbn [option_map set_col map]. rewrite E.
    apply String.eqb_eq in E. subst name.
    f_equal.
    rewrite on_column_absent by exact Hnotin.
    apply (set_col_absent _ _ _ Hnotin).
  - specialize (IH Hnd').
    destruct (find (fun c0 => String.eqb (fst c0) name) df) as [c'|];
      cbn [option_map] in *.
    + cbn [set_col map]. rewrite E. f_equal. exact IH.
    + f_equal. exact IH.
Qed.

Lemma columns_on_column (name : string) (f : Series -> Series)
  (df : DataFrame) :
  columns (map (on_column name f) df) = columns df.
Proof.
  unfold columns. rewrite map_map. apply map_ext.
  intros c. unfold on_column. now destruct (String.eqb (fst c) name).
Qed.

Lemma find_key_absent {A : Type} (key : A -> string) (items : list A)
  (n : string) :
  ~ In n (map key items) ->
  find (fun a => String.eqb (key a) n) items = None.
Proof.
  induction items as [|a items IH]; simpl; intros H; [reflexivity|].
  destruct (String.eqb (key a) n) eqn:E.
  - apply String.eqb_eq in E. tauto.
  - apply IH. tauto.
Qed.

(** A loop over items that name different columns rewrites each column
    once, by the item that names it. *)
Lemma fold_update_col {A : Type} (key : A -> string)
  (F : A -> Series -> Series) (items : list A) :
  NoDup (map key items) ->
  forall df, NoDup (columns df) ->
    fold_left (fun d a => update_col (F a) d (key a)) items df
    = map (on_columns key F items) df.
Proof.
  induction items as [|a items IH]; intros Hk df Hnd.
  - simpl. symmetry. rewrite <- (map_id df) at 2. apply map_ext.
    intros c. reflexivity.
  - simpl in Hk. inversion Hk as [|? ? Hnotin Hk']; subst.
    cbn [fold_left].
    rewrite update_col_map by exact Hnd.
    rewrite IH; [|exact Hk'|now rewrite columns_on_column].
    rewrite map_map. apply map_ext. intros c.
    unfold on_columns at 2. cbn [find]. unfold on_column.
    destruct (String.eqb (fst c) (key a)) eqn:E.
    + rewrite String.eqb_sym, E.
      unfold on_columns. cbn [fst snd].
      apply String.eqb_eq in E. rewrite E.
      now rewrite (find_key_absent key items (key a) Hnotin).
    + rewrite String.eqb_sym, E. reflexivity.
Qed.

Lemma find_names (names : list string) (n : string) :
  In n names -> find (fun a => String.eqb a n) names = Some n.
Proof.
  induction names as [|a names IH]; simpl; intros H; [contradiction|].
  destruct (String.eqb a n) eqn:E.
  - apply String.eqb_eq in E. now subst.
  - apply IH. destruct H as [H|H]; [|exact H].
    subst. rewrite String.eqb_refl in E. discriminate.
Qed.

(** The loop of "Fill with column mode" applies [fill_mode_column] to
    every column. *)
Lemma fill_mode_frame (df : DataFrame) :
  NoDup (columns df) ->
  null_step py FillMode df
  = map (fun c => (fst c, fill_mode_column (snd c))) df.
Proof.
  intros Hnd. cbn [null_step]. unfold for_columns.
  rewrite (fold_update_col (fun n => n) (fun _ => fill_mode_column)
             (columns df) ).
  - apply map_ext_in. intros c Hc. unfold on_columns.
    rewrite (find_names (columns df) (fst c)); [reflexivity|].
    unfold columns. now apply in_map.
  - now rewrite map_id.
  - exact Hnd.
Qed.

(** C7.  Under "Fill with column mode", a column with at least one
    non-missing value has each missing cell replaced by a value of the
    column that no other value outnumbers, its other cells staying as
    they are; a column without any non-missing value is left as it is:
    the failed [mode()[0]] is caught. *)
Theorem fill_mode_spec (df : DataFrame) (name : string) (s : Series) :
  NoDup (columns df) ->
  In (name, s) df ->
  exists s',
    In (name, s') (null_step py FillMode df)
    /\ (dropna (s_cells s) = [] -> s' = s)
    /\ (dropna (s_cells s) <> [] ->
        exists m,
          In m (dropna (s_cells s))
          /\ (forall w, In w (dropna (s_cells s)) ->
                        count w (dropna (s_cells s))
                        <= count m (dropna (s_cells s)))
          /\ s_cells s' = map (fill_cell (Some m)) (s_cells s)).
Proof.
  intros Hnd Hin.
  exists (fill_mode_column s). split; [|split].
  - rewrite fill_mode_frame by exact Hnd.
    change (name, fill_mode_column s)
      with ((fun c : string * Series => (fst c, fill_mode_column (snd c)))
              (name, s)).
    now apply in_map.
  - intros Hv. unfold fill_mode_column.
    rewrite (mode_of_no_values s Hv).
    now destruct (existsb isnull (s_cells s)).
  - intros Hv. unfold fill_mode_column.
    destruct (mode s) as [|m rest] eqn:Em.
    + apply mode_nil in Em. contradiction.
    + destruct (mode_head s m rest Em) as [Hm Hmax].
      exists m. split; [exact Hm|]. split; [exact Hmax|].
      destruct (existsb isnull (s_cells s)) eqn:En.
      * apply fillna_cells.
      * symmetry. now apply fill_cell_no_nulls.
Qed.

(** *** Custom fill per column *)

Lemma fill_all_missing (c : cell) (l : list cell) :
  dropna l = [] -> map (fill_cell c) l = repeat c (List.length l).
Proof.
  induction l as [|[v|] l IH]; simpl; intros H.
  - reflexivity.
  - discriminate.
  - now rewrite IH.
Qed.

Lemma fill_values_keys (text_input : string -> string) (names : list string) :
  NoDup names ->
  NoDup (map fst (filter (fun kv => negb (String.eqb (snd kv) ""))
                         (map (fun col => (col, text_input col)) names))).
Proof.
  induction names as [|a names IH]; intros Hnd; simpl; [constructor|].
  inversion Hnd as [|? ? Hnotin Hnd']; subst.
  destruct (negb (String.eqb (text_input a) "")).
  - simpl. constructor; [|now apply IH].
    intros Hin. apply Hnotin.
    apply in_map_iff in Hin. destruct Hin as ([k v] & Hk & Hin).
    apply filter_In in Hin. destruct Hin as [Hin _].
    apply in_map_iff in Hin. destruct Hin as (col & Hcol & Hin).
    simpl in Hk. congruence.
  - now apply IH.
Qed.

Lemma find_fill_value (text_input : string -> string) (names : list string)
  (n : string) :
  In n names ->
  text_input n <> "" ->
  find (fun kv => String.eqb (fst kv) n)
       (filter (fun kv => negb (String.eqb (snd kv) ""))
               (map (fun col => (col, text_input col)) names))
  = Some (n, text_input n).
Proof.
  intros Hin Hne.
  induction names as [|a names IH]; [contradiction|].
  cbn [map filter snd].
  destruct (String.eqb a n) eqn:Ea.
  - apply String.eqb_eq in Ea. subst a.
    apply String.eqb_neq in Hne. rewrite Hne.
    cbn [negb find fst]. now rewrite String.eqb_refl.
  - assert (Hin' : In n names).
    { destruct Hin as [H|H]; [|exact H].
      subst. rewrite String.eqb_refl in Ea. discriminate. }
    destruct (negb (String.eqb (text_input a) "")).
    + cbn [find fst]. rewrite Ea. now apply IH.
    + now apply IH.
Qed.

Lemma NoDup_columns_with_nulls (df : DataFrame) :
  NoDup (columns df) -> NoDup (columns_with_nulls df).
Proof.
  unfold columns, columns_with_nulls.
  induction df as [|c df IH]; simpl; intros H; [constructor|].
  inversion H as [|? ? Hnotin Hnd]; subst.
  destruct (existsb isnull (s_cells (snd c))).
  - simpl. constructor; [|now apply IH].
    intros Hin. apply Hnotin.
    apply in_map_iff in Hin. destruct Hin as (c' & Hc' & Hin).
    apply filter_In in Hin. rewrite <- Hc'. apply in_map. tauto.
  - now apply IH.
Qed.

(** What one pass of the custom fill writes in the missing cells of a
    column: the text built into the type of the column's first value, or
    the text itself when that fails or when there is no value. *)
Lemma custom_fill_column_cells (replacement : string) (s : Series) :
  s_cells (custom_fill_column py replacement s)
  = map (fill_cell
           match dropna (s_cells s) with
           | v :: _ =>
               match construct py (type_of v) replacement with
               | Some c => c
               | None => Some (VStr replacement)
               end
           | [] => Some (VStr replacement)
           end) (s_cells s).
Proof.
  unfold custom_fill_column.
  destruct (dropna (s_cells s)) as [|v rest].
  - apply fillna_cells.
  - destruct (construct py (type_of v) replacement); apply fillna_cells.
Qed.

Lemma custom_fill_frame (text_input : string -> string) (df : DataFrame)
  (name : string) (s : Series) :
  NoDup (columns df) ->
  In (name, s) df ->
  existsb isnull (s_cells s) = true ->
  text_input name <> "" ->
  In (name, custom_fill_column py (text_input name) s)
     (null_step py (CustomPerColumn text_input true) df).
Proof.
  intros Hnd Hin Hnull Htext.
  cbn [null_step].
  rewrite (fold_update_col (@fst string string)
             (fun kv => custom_fill_column py (snd kv))).
  - assert (Hn : In name (columns_with_nulls df)).
    { unfold columns_with_nulls.
      change name with (fst (name, s)). apply in_map.
      apply filter_In. split; [exact Hin|exact Hnull]. }
    replace (name, custom_fill_column py (text_input name) s)
      with (on_columns (@fst string string)
              (fun kv => custom_fill_column py (snd kv))
              (fill_values text_input df) (name, s)).
    + now apply in_map.
    + unfold on_columns, fill_values. cbn [fst snd].
      now rewrite (find_fill_value text_input _ name Hn Htext).
  - unfold fill_values. apply fill_values_keys.
    now apply NoDup_columns_with_nulls.
  - exact Hnd.
Qed.

(** C6.  Under "Custom fill per column", once applied, a column with
    missing cells for which a text was typed has each missing cell
    replaced by the text built into the type of the column's first
    non-missing value when the constructor accepts it, and by the text
    itself when the constructor raises; a column with no value at all
    gets the text itself in every cell.  Nothing is raised: the failed
    [iloc[0]] and the failed constructor are both caught. *)
Theorem custom_fill_spec (text_input : string -> string) (df : DataFrame)
  (name : string) (s : Series) :
  NoDup (columns df) ->
  In (name, s) df ->
  existsb isnull (s_cells s) = true ->
  text_input name <> "" ->
  exists s',
    In (name, s') (null_step py (CustomPerColumn text_input true) df)
    /\ (forall v rest c,
          dropna (s_cells s) = v :: rest ->
          construct py (type_of v) (text_input name) = Some c ->
          s_cells s' = map (fill_cell c) (s_cells s))
    /\ (forall v rest,
          dropna (s_cells s) = v :: rest ->
          construct py (type_of v) (text_input name) = None ->
          s_cells s'
          = map (fill_cell (Some (VStr (text_input name)))) (s_cells s))
    /\ (dropna (s_cells s) = [] ->
        s_cells s' = repeat (Some (VStr (text_input name))) (len s)).
Proof.
  intros Hnd Hin Hnull Htext.
  exists (custom_fill_column py (text_input name) s).
  split; [now apply custom_fill_frame|].
  rewrite custom_fill_column_cells.
  split; [|split].
  - intros v rest c Hv Hc. now rewrite Hv, Hc.
  - intros v rest Hv Hc. now rewrite Hv, Hc.
  - intros Hv. rewrite Hv. now apply fill_all_missing.
Qed.

End Fills.

(* ================================================================== *)
(** * Properties of the cleaning steps *)

Section Ordering.

Variable py : runtime.

(** *** Python's equality is symmetric *)

Lemma Qeq_bool_sym (p q : Q) : Qeq_bool p q = Qeq_bool q p.
Proof.
  destruct (Qeq_bool p q) eqn:E1, (Qeq_bool q p) eqn:E2; try reflexivity.
  - apply Qeq_bool_iff in E1. symmetry in E1. apply Qeq_bool_iff in E1.
    congruence.
  - apply Qeq_bool_iff in E2. symmetry in E2. apply Qeq_bool_iff in E2.
    congruence.
Qed.

Lemma value_eqb_sym (a b : value) : value_eqb a b = value_eqb b a.
Proof.
  destruct a, b; simpl;
    try reflexivity;
    try apply String.eqb_sym; try apply Z.eqb_sym; try apply Qeq_bool_sym.
Qed.

Lemma cell_eqb_sym (a b : cell) : cell_eqb a b = cell_eqb b a.
Proof.
  destruct a, b; simpl; try reflexivity. apply value_eqb_sym.
Qed.

Lemma row_eqb_sym (r1 : row) : forall r2, row_eqb r1 r2 = row_eqb r2 r1.
Proof.
  induction r1 as [|a r1 IH]; intros [|b r2]; simpl; try reflexivity.
  now rewrite cell_eqb_sym, IH.
Qed.

(** *** Boolean indexing and rows *)

Lemma select_zip_cons (mask : list bool) :
  forall (c : list cell) (rs : list row),
    select mask (zip_cons c rs) = zip_cons (select mask c) (select mask rs).
Proof.
  induction mask as [|b mask IH]; intros c rs.
  - destruct (zip_cons c rs); reflexivity.
  - destruct c as [|x c]; [reflexivity|].
    destruct rs as [|r rs].
    + simpl. now destruct (if b then x :: select mask c else select mask c).
    + simpl. destruct b; simpl; now rewrite IH.
Qed.

Lemma select_map {A B : Type} (f : A -> B) (mask : list bool) :
  forall l, select mask (map f l) = map f (select mask l).
Proof.
  induction mask as [|b mask IH]; intros [|x l]; simpl; try reflexivity.
  destruct b; simpl; now rewrite IH.
Qed.

Lemma transpose_select (mask : list bool) (cols : list (list cell)) :
  transpose (map (select mask) cols) = select mask (transpose cols).
Proof.
  induction cols as [|c cols IH].
  - simpl. now destruct mask.
  - destruct cols as [|c2 cols].
    + simpl. symmetry. apply select_map.
    + change (transpose (map (select mask) (c :: c2 :: cols)))
        with (zip_cons (select mask c)
                (transpose (map (select mask) (c2 :: cols)))).
      rewrite IH.
      change (transpose (c :: c2 :: cols))
        with (zip_cons c (transpose (c2 :: cols))).
      symmetry. apply select_zip_cons.
Qed.

(** The rows of [df[mask]] are the rows of [df] picked by [mask]. *)
Lemma rows_select_rows (mask : list bool) (df : DataFrame) :
  rows (select_rows mask df) = select mask (rows df).
Proof.
  unfold rows, select_rows.
  rewrite map_map. cbn [snd s_cells].
  rewrite <- transpose_select, map_map. reflexivity.
Qed.

Lemma columns_named_select_rows (mask : list bool) (subset : list string)
  (df : DataFrame) :
  columns_named subset (select_rows mask df)
  = select_rows mask (columns_named subset df).
Proof.
  unfold columns_named, select_rows.
  induction subset as [|n subset IH]; [reflexivity|].
  cbn [flat_map]. rewrite map_app, IH. f_equal.
  clear IH. induction df as [|c df IHdf]; [reflexivity|].
  cbn [map filter fst].
  destruct (String.eqb (fst c) n); cbn [map]; now rewrite IHdf.
Qed.

Lemma keys_of_select_rows (subset : option (list string)) (mask : list bool)
  (df : DataFrame) :
  keys_of subset (select_rows mask df) = select mask (keys_of subset df).
Proof.
  destruct subset as [cols|]; cbn [keys_of].
  - rewrite columns_named_select_rows. apply rows_select_rows.
  - apply rows_select_rows.
Qed.

Lemma select_app {A : Type} (m1 : list bool) :
  forall (l1 : list A) (m2 : list bool) (l2 : list A),
    List.length m1 = List.length l1 ->
    select (m1 ++ m2)%list (l1 ++ l2)%list
    = (select m1 l1 ++ select m2 l2)%list.
Proof.
  induction m1 as [|b m1 IH]; intros [|x l1] m2 l2 H; simpl in H;
    try discriminate.
  - reflexivity.
  - simpl. destruct b; simpl; rewrite IH by lia; reflexivity.
Qed.

Lemma select_rev {A : Type} (mask : list bool) :
  forall (l : list A),
    List.length mask = List.length l ->
    select (rev mask) (rev l) = rev (select mask l).
Proof.
  induction mask as [|b mask IH]; intros [|x l] H; simpl in H;
    try discriminate.
  - reflexivity.
  - cbn [rev]. rewrite select_app by (rewrite !length_rev; lia).
    rewrite IH by lia. destruct b; simpl.
    + reflexivity.
    + now rewrite app_nil_r.
Qed.

Lemma duplicated_from_length (keys : list row) :
  forall seen, List.length (duplicated_from seen keys) = List.length keys.
Proof.
  induction keys as [|r keys IH]; intros seen; simpl; [reflexivity|].
  now rewrite IH.
Qed.

(** *** What drop_duplicates leaves *)

Lemma existsb_incl_false {A : Type} (p : A -> bool) (s' s : list A) :
  incl s' s -> existsb p s = false -> existsb p s' = false.
Proof.
  intros Hincl Hs.
  destruct (existsb p s') eqn:E; [|reflexivity].
  apply existsb_exists in E. destruct E as (x & Hx & Hp).
  assert (Ht : existsb p s = true).
  { apply existsb_exists. exists x. split; [now apply Hincl|exact Hp]. }
  congruence.
Qed.

(** Of the keys kept by [keep="first"], none is marked again, even
    against fewer seen keys. *)
Lemma first_kept_unmarked (keys : list row) :
  forall seen seen',
    incl seen' seen ->
    existsb (fun b => b)
      (duplicated_from seen'
         (select (map negb (duplicated_from seen keys)) keys)) = false.
Proof.
  induction keys as [|r keys IH]; intros seen seen' Hincl; [reflexivity|].
  cbn [duplicated_from map select].
  destruct (existsb (row_eqb r) seen) eqn:E; cbn [negb].
  - apply IH. now apply incl_tl.
  - cbn [duplicated_from existsb].
    rewrite (existsb_incl_false _ _ _ Hincl E). cbn [orb].
    apply IH. intros x [Hx|Hx]; [left; exact Hx|right; now apply Hincl].
Qed.

(** A list of keys has no marked key exactly when no key equals a seen
    one and no key equals an earlier one. *)
Lemma unmarked_iff (l : list row) :
  forall seen,
    existsb (fun b => b) (duplicated_from seen l) = false
    <-> (forall r, In r l -> existsb (row_eqb r) seen = false)
        /\ ForallOrdPairs (fun a b => row_eqb b a = false) l.
Proof.
  induction l as [|x l IH]; intros seen.
  - simpl. split; [|reflexivity].
    intros _. split; [intros r []|constructor].
  - cbn [duplicated_from existsb]. rewrite orb_false_iff, IH.
    split.
    + intros (Hx & Hl & Hfop). split.
      * intros r [<-|Hr]; [exact Hx|].
        specialize (Hl r Hr). cbn [existsb] in Hl.
        apply orb_false_iff in Hl. tauto.
      * constructor; [|exact Hfop].
        apply Forall_forall. intros r Hr.
        specialize (Hl r Hr). cbn [existsb] in Hl.
        apply orb_false_iff in Hl. tauto.
    + intros (Hall & Hfop).
      inversion Hfop as [|? ? Hx Hfop']; subst.
      split; [apply Hall; now left|].
      split; [|exact Hfop'].
      intros r Hr. cbn [existsb]. apply orb_false_iff. split.
      * rewrite Forall_forall in Hx. now apply Hx.
      * apply Hall. now right.
Qed.

Lemma FOP_snoc {A : Type} (R : A -> A -> Prop) (l : list A) (a : A) :
  ForallOrdPairs R l -> Forall (fun x => R x a) l ->
  ForallOrdPairs R (l ++ [a])%list.
Proof.
  induction 1 as [|x l Hx Hfop IH]; intros Ha; simpl.
  - constructor; constructor.
  - inversion Ha as [|? ? Hxa Ha']; subst.
    constructor; [|now apply IH].
    apply Forall_app. split; [exact Hx|]. constructor; [exact Hxa|constructor].
Qed.

Lemma FOP_rev {A : Type} (R : A -> A -> Prop) (l : list A) :
  ForallOrdPairs R l -> ForallOrdPairs (fun a b => R b a) (rev l).
Proof.
  induction 1 as [|x l Hx Hfop IH]; simpl; [constructor|].
  apply FOP_snoc; [exact IH|].
  apply Forall_rev. exact Hx.
Qed.

(** Having no marked key does not depend on the direction of reading. *)
Lemma unmarked_rev (l : list row) :
  existsb (fun b => b) (duplicated_from [] l) = false ->
  existsb (fun b => b) (duplicated_from [] (rev l)) = false.
Proof.
  intros H. apply unmarked_iff in H. destruct H as [_ Hfop].
  apply unmarked_iff. split; [reflexivity|].
  apply FOP_rev in Hfop.
  clear -Hfop. induction Hfop as [|x m Hx Hfop IH]; constructor.
  - eapply Forall_impl; [|exact Hx].
    intros r Hr. cbn beta in Hr. now rewrite row_eqb_sym.
  - exact IH.
Qed.

Lemma kept_keys_unmarked (k : keep) (keys : list row) :
  existsb (fun b => b)
    (duplicated_from []
       (select (map negb (duplicated_keys k keys)) keys)) = false.
Proof.
  destruct k; cbn [duplicated_keys].
  - apply first_kept_unmarked. apply incl_refl.
  - rewrite map_rev.
    rewrite <- (rev_involutive keys) at 2.
    rewrite select_rev.
    + apply unmarked_rev. apply first_kept_unmarked. apply incl_refl.
    + now rewrite length_map, duplicated_from_length.
Qed.

(** After [drop_duplicates], [duplicated] on the same columns marks no
    row, whichever occurrence was kept. *)
Lemma drop_duplicates_unmarked (subset : option (list string)) (k : keep)
  (df : DataFrame) :
  existsb (fun b => b)
    (duplicated subset keep_first (drop_duplicates subset k df)) = false.
Proof.
  unfold duplicated, drop_duplicates. cbn [duplicated_keys].
  rewrite keys_of_select_rows.
  apply kept_keys_unmarked.
Qed.

(** C3, as amended.  In test_code4.py the null branch runs first and the
    duplicate branch works on its result: the cleaned frame is the
    duplicate step applied to the null-handled frame, so that no
    duplicate (on the compared columns) is left, whatever the null
    handling filled in.  test_code1.py and piping_data.py follow the same
    order; test_code2.py does not. *)
Theorem nulls_before_duplicates (ns : NullStrategy) (ds : DuplicateStrategy)
  (n : NullChoice) (df : DataFrame) :
  clean py ns ds df = dup_step ds (null_step py ns df)
  /\ match ds with
     | KeepAll => clean py ns ds df = null_step py ns df
     | DropKeepFirst =>
         clean py ns ds df
         = drop_duplicates None keep_first (null_step py ns df)
         /\ duplicated_any (clean py ns ds df) = false
     | DropKeepLast =>
         clean py ns ds df
         = drop_duplicates None keep_last (null_step py ns df)
         /\ duplicated_any (clean py ns ds df) = false
     | DropOnSubset cols =>
         cols = [] \/
         (clean py ns ds df
          = drop_duplicates (Some cols) keep_first (null_step py ns df)
          /\ existsb (fun b => b)
               (duplicated (Some cols) keep_first (clean py ns ds df))
             = false)
     end
  /\ clean1 n DropDuplicates df
     = drop_duplicates None keep_first (null_choice_step n df)
  /\ duplicated_any (clean1 n DropDuplicates df) = false.
Proof.
  split; [reflexivity|]. split; [|split].
  - destruct ds as [| | |cols]; unfold clean; cbn [dup_step].
    + reflexivity.
    + split; [reflexivity|]. apply drop_duplicates_unmarked.
    + split; [reflexivity|]. apply drop_duplicates_unmarked.
    + destruct cols as [|c cols]; [left; reflexivity|right].
      split; [reflexivity|]. apply drop_duplicates_unmarked.
  - reflexivity.
  - unfold clean1, duplicated_any. apply drop_duplicates_unmarked.
Qed.

(** C10.  With "Drop duplicates across selected subset of columns" and no
    column selected, the duplicate branch does nothing: the frame that
    leaves the cleaning step is the one the null branch produced, row for
    row, and no call that could raise is made. *)
Theorem empty_subset_keeps_frame (ns : NullStrategy) (df : DataFrame) :
  dup_step (DropOnSubset []) df = df
  /\ clean py ns (DropOnSubset []) df = null_step py ns df
  /\ rows (clean py ns (DropOnSubset []) df) = rows (null_step py ns df).
Proof.
  repeat split.
Qed.

End Ordering.

(* ================================================================== *)
(** * Properties of the chart loop *)

Section Charts.

Lemma specified_true (a : string) : specified a = true <-> a <> "None".
Proof.
  unfold specified. rewrite negb_true_iff. apply String.eqb_neq.
Qed.

(** A select box of an axis yields "None" or the name of a column. *)
Lemma pick_axis_options (df : DataFrame) (i : nat) :
  pick_axis df i = "None" \/ In (pick_axis df i) (columns df).
Proof.
  unfold pick_axis, axis_options, selectbox.
  destruct (Nat.lt_ge_cases i (List.length ("None" :: columns df)))
    as [Hlt|Hge].
  - destruct (nth_In ("None" :: columns df) "None" Hlt) as [H|H].
    + left. now symmetry.
    + right. exact H.
  - left. now apply nth_overflow.
Qed.

(** C5, as amended.  In the chart loop a chart of any kind, histogram and
    box included, is handed to the plotting library exactly when both its
    x and its y are specified; both then name columns of the frame; in
    every other case the chart is skipped with a warning, and no
    exception is raised. *)
Theorem chart_needs_both_axes (df : DataFrame) (p : picks) (n : nat) :
  let config := configure df p in
  (specified (cfg_x config) && specified (cfg_y config) = true ->
   In (cfg_x config) (columns df)
   /\ In (cfg_y config) (columns df)
   /\ exists color,
       render_chart n config
       = Plot (mkFigure (pick_type p) (Some (cfg_x config))
                        (Some (cfg_y config)) color))
  /\ (specified (cfg_x config) && specified (cfg_y config) = false ->
      exists msg, render_chart n config = Warning msg).
Proof.
  cbv zeta. split.
  - intros H. apply andb_prop in H. destruct H as [Hx Hy].
    split; [|split].
    + cbn [configure cfg_x] in *.
      destruct (pick_axis_options df (pick_x p)) as [E|E]; [|exact E].
      apply specified_true in Hx. contradiction.
    + cbn [configure cfg_y] in *.
      destruct (pick_axis_options df (pick_y p)) as [E|E]; [|exact E].
      apply specified_true in Hy. contradiction.
    + unfold render_chart. rewrite Hx, Hy. cbn [andb].
      eexists. reflexivity.
  - intros H. unfold render_chart. rewrite H.
    eexists. reflexivity.
Qed.

(** The loop shows one outcome per configured chart, in order, the
    chart at position [i] being numbered [i + 1] in its warning. *)
Lemma render_from_nth (configs : list chart_config) :
  forall n i,
    nth_error (render_from n configs) i
    = option_map (render_chart (n + i)) (nth_error configs i).
Proof.
  induction configs as [|c configs IH]; intros n i.
  - now destruct i.
  - destruct i as [|i]; cbn [render_from nth_error option_map].
    + now rewrite Nat.add_0_r.
    + rewrite IH. now rewrite Nat.add_succ_r.
Qed.

Lemma render_charts_nth (configs : list chart_config) (i : nat) :
  nth_error (render_charts configs) i
  = option_map (render_chart i) (nth_error configs i).
Proof.
  unfold render_charts. now rewrite render_from_nth.
Qed.

End Charts.

(* ================================================================== *)
(** * Further properties of the type inference and of the type boxes *)

Section MoreInference.

Variable py : runtime.

Lemma remove_nth_perm {A : Type} (d : A) (l : list A) :
  forall i, i < List.length l ->
            Permutation (nth i l d :: remove_nth i l) l.
Proof.
  induction l as [|x l IH]; intros i Hi; simpl in Hi; [lia|].
  destruct i as [|i]; cbn [nth remove_nth]; [apply Permutation_refl|].
  apply Permutation_trans with (x :: nth i l d :: remove_nth i l).
  - apply perm_swap.
  - apply perm_skip. apply IH. lia.
Qed.

(** Drawing as many values as there are gives every value once. *)
Lemma draw_all_perm {A : Type} (g : rng) (n : nat) :
  forall (k : nat) (l : list A),
    List.length l = n -> Permutation (draw g k n l) l.
Proof.
  induction n as [|n IH]; intros k l Hl.
  - destruct l; [apply perm_nil|discriminate].
  - destruct l as [|x l']; [discriminate|].
    assert (Hi : g k mod List.length (x :: l') < List.length (x :: l')).
    { apply Nat.mod_upper_bound. discriminate. }
    cbn [draw].
    apply Permutation_trans
      with (nth (g k mod List.length (x :: l')) (x :: l') x
            :: remove_nth (g k mod List.length (x :: l')) (x :: l')).
    + apply perm_skip. apply IH.
      rewrite remove_nth_length by exact Hi. rewrite Hl. lia.
    + now apply remove_nth_perm.
Qed.

(** X1.  On a column of at most 50 rows without missing cells the
    sample handed to the timestamp parser is the whole column in some
    order: [sample] does not raise, and every value of the column is in
    the sample exactly once, whatever the seed.  (The seed then decides
    the order only.) *)
Theorem small_column_sample_is_whole (g : rng) (s : Series) :
  existsb isnull (s_cells s) = false ->
  len s <= 50 ->
  exists smp,
    sample g (sample_size s) (dropna (s_cells s)) = Some smp
    /\ List.length smp = len s
    /\ Permutation smp (dropna (s_cells s)).
Proof.
  intros Hn H50.
  assert (Hsz : sample_size s = List.length (dropna (s_cells s))).
  { unfold sample_size. rewrite (dropna_no_nulls _ Hn).
    apply Nat.min_r. exact H50. }
  exists (draw g 0 (sample_size s) (dropna (s_cells s))).
  split; [|split].
  - apply sample_enough. rewrite Hsz. apply Nat.le_refl.
  - rewrite draw_length by (rewrite Hsz; apply Nat.le_refl).
    rewrite Hsz. now apply dropna_no_nulls.
  - apply draw_all_perm. now symmetry.
Qed.

(** X2.  Boolean is suggested on one path only: a generic column that
    fails the timestamp and the all-digit tests and passes the word
    test.  The branch for a stored boolean dtype is never taken, such a
    column being numeric for pandas and suggested as Float; and a column
    of the texts "0" and "1" alone is all-digit, hence never Boolean. *)
Theorem boolean_only_from_words (g : rng) (s : Series) :
  (s_dtype s = bool_ -> suggest_dtype py g s = Float)
  /\ (suggest_dtype py g s = Boolean ->
      s_dtype s = object_
      /\ try_to_datetime py g s = false
      /\ all_isnumeric py s = false
      /\ all_bool_words py s = true).
Proof.
  split.
  - intros Hd. open_dtype_tests. now rewrite Hd.
  - open_dtype_tests.
    destruct (s_dtype s); try discriminate.
    destruct (try_to_datetime py g s); [discriminate|].
    destruct (all_isnumeric py s); [discriminate|].
    destruct (all_bool_words py s); [intros _; repeat split|].
    destruct (category_rule s); discriminate.
Qed.

Lemma nunique_positive (s : Series) :
  dropna (s_cells s) <> [] -> 1 <= nunique s.
Proof.
  unfold nunique. destruct (dropna (s_cells s)) as [|v l]; [congruence|].
  intros _. simpl. lia.
Qed.

(** X3.  Category is never suggested for a column of 20 rows or fewer:
    a column that gets to the test has a value, so at least one distinct
    value, and the test asks for 20 times as many rows and one more. *)
Theorem category_needs_many_rows (g : rng) (s : Series) :
  suggest_dtype py g s = Category ->
  s_dtype s = object_ /\ 1 <= nunique s /\ 21 <= len s.
Proof.
  open_dtype_tests.
  destruct (s_dtype s); try discriminate.
  destruct (try_to_datetime py g s); [discriminate|].
  destruct (all_isnumeric py s) eqn:En; [discriminate|].
  destruct (all_bool_words py s); [discriminate|].
  destruct (category_rule s) eqn:Ec; [|discriminate].
  intros _.
  assert (Hu : 1 <= nunique s).
  { apply nunique_positive. intros Hv.
    unfold all_isnumeric in En. rewrite Hv in En. discriminate. }
  unfold category_rule in Ec. apply Nat.ltb_lt in Ec.
  repeat split; [exact Hu|lia].
Qed.

Lemma index_of_found (x : string) (l : list string) :
  str_in x l = true ->
  exists i, index_of x l = Some i /\ nth_error l i = Some x.
Proof.
  unfold str_in.
  induction l as [|y l IH]; cbn [existsb index_of]; intros H;
    [discriminate|].
  rewrite String.eqb_sym in H.
  destruct (String.eqb y x) eqn:E.
  - apply String.eqb_eq in E. subst y. exists 0. split; reflexivity.
  - destruct (IH H) as (i & Hi & Hn).
    exists (S i). rewrite Hi. split; [reflexivity|exact Hn].
Qed.

(** X4.  The type select box of a column opens on the suggested type:
    [index] finds every string [suggest_dtype] can return among the
    options, raises nothing, and the fallback position 2 is not used. *)
Theorem type_box_opens_on_suggestion (g : rng) (s : Series) :
  exists i,
    default_type_index (dtype_name (suggest_dtype py g s)) = Some i
    /\ nth_error type_options i = Some (dtype_name (suggest_dtype py g s))
    /\ str_in (dtype_name (suggest_dtype py g s)) type_options = true.
Proof.
  assert (Hin : str_in (dtype_name (suggest_dtype py g s)) type_options
                = true).
  { now destruct (suggest_dtype py g s). }
  destruct (index_of_found _ _ Hin) as (i & Hi & Hn).
  exists i. unfold default_type_index. rewrite Hin.
  repeat split; assumption.
Qed.

(** The keys of the conversion dictionary are the words of the
    suggestion. *)
Lemma dict_get_bool_words (k : string) :
  str_in k bool_words = true <-> dict_get k bool_map <> None.
Proof.
  unfold str_in, bool_words, bool_map. cbn [existsb dict_get].
  rewrite !(String.eqb_sym k).
  destruct (String.eqb "true" k); [split; [discriminate|reflexivity]|].
  destruct (String.eqb "false" k); [split; [discriminate|reflexivity]|].
  destruct (String.eqb "yes" k); [split; [discriminate|reflexivity]|].
  destruct (String.eqb "no" k); [split; [discriminate|reflexivity]|].
  destruct (String.eqb "1" k), (String.eqb "0" k);
    cbn [orb]; split; try discriminate; try reflexivity; congruence.
Qed.

Lemma to_boolean_at_most (l : list cell) :
  List.length (dropna (to_boolean py l)) <= List.length (dropna l).
Proof.
  induction l as [|[v|] l IH]; cbn [to_boolean map to_boolean_cell dropna].
  - apply Nat.le_refl.
  - destruct (dict_get (lower (py_str py v)) bool_map);
      cbn [option_map dropna List.length]; fold (to_boolean py l); lia.
  - exact IH.
Qed.

(** X5.  The conversion to bool keeps every value of a column exactly
    when the column passes the word test of the suggestion: each value
    then becomes True or False; a value whose text is none of the six
    words is turned into a missing cell, without a warning. *)
Theorem to_boolean_keeps_values_iff (s : Series) :
  all_bool_words py s = true
  <-> List.length (dropna (to_boolean py (s_cells s)))
      = List.length (dropna (s_cells s)).
Proof.
  unfold all_bool_words.
  induction (s_cells s) as [|[v|] l IH];
    cbn [to_boolean map to_boolean_cell dropna forallb].
  - split; reflexivity.
  - fold (to_boolean py l).
    pose proof (dict_get_bool_words (lower (py_str py v))) as Hk.
    pose proof (to_boolean_at_most l) as Hle.
    destruct (dict_get (lower (py_str py v)) bool_map) as [b|].
    + assert (Hw : str_in (lower (py_str py v)) bool_words = true).
      { apply Hk. discriminate. }
      rewrite Hw. cbn [andb option_map dropna List.length].
      rewrite IH. split; intros H; lia.
    + assert (Hw : str_in (lower (py_str py v)) bool_words = false).
      { destruct (str_in (lower (py_str py v)) bool_words); [|reflexivity].
        exfalso. now apply Hk. }
      rewrite Hw. cbn [andb option_map dropna List.length].
      split; [discriminate|]. intros H. lia.
  - exact IH.
Qed.

Lemma notna_any_dropna (l : list cell) :
  existsb (fun c => negb (isnull c)) l = true <-> dropna l <> [].
Proof.
  induction l as [|[v|] l IH]; simpl.
  - split; [discriminate|congruence].
  - split; [discriminate|reflexivity].
  - exact IH.
Qed.

(** X6.  The "Sample Value" of the metadata table never raises: the
    guard [notna().any()] holds exactly when [dropna()] is not empty,
    so [iloc[0]] is only asked of a series that has a first item.  The
    entry is the first non-missing value of the column, and the text
    "NaN" for a column without any. *)
Theorem sample_value_is_first_value (s : Series) :
  sample_value s
  = match dropna (s_cells s) with
    | v :: _ => SampleValue v
    | [] => SampleText "NaN"
    end.
Proof.
  unfold sample_value.
  pose proof (notna_any_dropna (s_cells s)) as H.
  destruct (existsb (fun c => negb (isnull c)) (s_cells s)).
  - destruct (dropna (s_cells s)); [|reflexivity].
    exfalso. now apply H.
  - destruct (dropna (s_cells s)) as [|v l]; [reflexivity|].
    assert (Ht : false = true) by (apply H; discriminate).
    discriminate.
Qed.

End MoreInference.

(* ================================================================== *)
(** * Further properties of the cleaning steps *)

Section MoreCleaning.

Variable py : runtime.

(** *** Rows dropped, cells left *)

Lemma select_In_nth {A : Type} (x : A) (mask : list bool) :
  forall c, In x (select mask c) ->
            exists i, nth_error mask i = Some true /\ nth_error c i = Some x.
Proof.
  induction mask as [|b mask IH]; intros [|y c] H; simpl in H;
    try contradiction.
  destruct b.
  - destruct H as [->|H].
    + exists 0. split; reflexivity.
    + destruct (IH c H) as (i & Hm & Hc). exists (S i). split; assumption.
  - destruct (IH c H) as (i & Hm & Hc). exists (S i). split; assumption.
Qed.

Lemma select_In {A : Type} (x : A) (mask : list bool) (c : list A) :
  In x (select mask c) -> In x c.
Proof.
  intros H. destruct (select_In_nth x mask c H) as (i & _ & Hc).
  now apply nth_error_In in Hc.
Qed.

Lemma zip_cons_nth (c : list cell) :
  forall (rs : list row) (i : nat) (r : row),
    nth_error (zip_cons c rs) i = Some r ->
    exists x r', r = x :: r' /\ nth_error c i = Some x
                 /\ nth_error rs i = Some r'.
Proof.
  induction c as [|x c IH]; intros [|r0 rs] i r H; simpl in H;
    try (destruct i; discriminate).
  destruct i as [|i]; simpl in H.
  - injection H as <-. exists x, r0. repeat split.
  - apply IH in H. exact H.
Qed.

(** The row at position [i] holds the cell at position [i] of every
    column. *)
Lemma transpose_nth (cols : list (list cell)) :
  forall c i r x,
    In c cols ->
    nth_error (transpose cols) i = Some r ->
    nth_error c i = Some x ->
    In x r.
Proof.
  induction cols as [|c0 cols IH]; intros c i r x Hin Hr Hx;
    [contradiction|].
  destruct cols as [|c1 cols].
  - destruct Hin as [<-|[]]. cbn [transpose] in Hr.
    rewrite nth_error_map, Hx in Hr. injection Hr as <-. now left.
  - change (transpose (c0 :: c1 :: cols))
      with (zip_cons c0 (transpose (c1 :: cols))) in Hr.
    apply zip_cons_nth in Hr. destruct Hr as (x0 & r' & -> & Hx0 & Hr').
    destruct Hin as [<-|Hin].
    + left. congruence.
    + right. exact (IH c i r' x Hin Hr' Hx).
Qed.

Lemma has_nulls_false (df : DataFrame) :
  has_nulls df = false
  <-> forall c x, In c df -> In x (s_cells (snd c)) -> isnull x = false.
Proof.
  unfold has_nulls. split.
  - intros H c x Hc Hx.
    destruct (isnull x) eqn:E; [|reflexivity].
    assert (Ht : existsb (fun c0 => existsb isnull (s_cells (snd c0))) df
                 = true).
    { apply existsb_exists. exists c. split; [exact Hc|].
      apply existsb_exists. exists x. split; assumption. }
    congruence.
  - intros H.
    destruct (existsb (fun c => existsb isnull (s_cells (snd c))) df) eqn:E;
      [|reflexivity].
    apply existsb_exists in E. destruct E as (c & Hc & E).
    apply existsb_exists in E. destruct E as (x & Hx & E).
    rewrite (H c x Hc Hx) in E. discriminate.
Qed.

(** Picking rows brings in no missing cell. *)
Lemma select_rows_no_nulls (mask : list bool) (df : DataFrame) :
  has_nulls df = false -> has_nulls (select_rows mask df) = false.
Proof.
  intros H. rewrite has_nulls_false in *.
  intros c x Hc Hx. unfold select_rows in Hc.
  apply in_map_iff in Hc. destruct Hc as (c0 & <- & Hc0).
  cbn [snd s_cells] in Hx. apply select_In in Hx.
  exact (H c0 x Hc0 Hx).
Qed.

Lemma dropna_any_no_nulls (df : DataFrame) :
  has_nulls (df_dropna how_any df) = false.
Proof.
  apply has_nulls_false. intros c x Hc Hx.
  unfold df_dropna, select_rows in Hc.
  apply in_map_iff in Hc. destruct Hc as (c0 & <- & Hc0).
  cbn [snd s_cells] in Hx.
  apply select_In_nth in Hx. destruct Hx as (i & Hm & Hx).
  rewrite nth_error_map in Hm.
  destruct (nth_error (rows df) i) as [r|] eqn:Er; [|discriminate].
  cbn [option_map] in Hm. injection Hm as Hs.
  assert (Hxr : In x r).
  { unfold rows in Er.
    eapply transpose_nth; [|exact Er|exact Hx].
    apply in_map_iff. exists c0. split; [reflexivity|exact Hc0]. }
  cbn [survives] in Hs. rewrite forallb_forall in Hs.
  specialize (Hs x Hxr). now apply negb_true_iff in Hs.
Qed.

Lemma dup_step_no_nulls (ds : DuplicateStrategy) (df : DataFrame) :
  has_nulls df = false -> has_nulls (dup_step ds df) = false.
Proof.
  intros H. destruct ds as [| | |[|c cols]]; cbn [dup_step];
    try exact H; now apply select_rows_no_nulls.
Qed.

(** X7.  After "Drop rows with any nulls" no cell of the frame is
    missing, and the duplicate step that follows, whichever it is,
    brings none back: the cleaned frame of test_code4.py has no missing
    cell, nor has that of test_code1.py and piping_data.py after "Drop
    rows". *)
Theorem drop_any_leaves_no_nulls (ds : DuplicateStrategy) (d : DupChoice)
  (df : DataFrame) :
  has_nulls (null_step py DropRowsAnyNull df) = false
  /\ has_nulls (clean py DropRowsAnyNull ds df) = false
  /\ has_nulls (clean1 DropRows d df) = false.
Proof.
  split; [apply dropna_any_no_nulls|]. split.
  - unfold clean. apply dup_step_no_nulls. apply dropna_any_no_nulls.
  - unfold clean1. cbn [null_choice_step].
    destruct d; [apply select_rows_no_nulls|]; apply dropna_any_no_nulls.
Qed.

Lemma FOP_select {A : Type} (R : A -> A -> Prop) (mask : list bool) :
  forall l, ForallOrdPairs R l -> ForallOrdPairs R (select mask l).
Proof.
  induction mask as [|b mask IH]; intros l H.
  - destruct l; constructor.
  - destruct H as [|x l Hx Hl]; [constructor|].
    cbn [select]. destruct b; [|now apply IH].
    constructor; [|now apply IH].
    apply Forall_forall. intros y Hy. apply select_In in Hy.
    rewrite Forall_forall in Hx. now apply Hx.
Qed.

(** Picking rows among rows that are all different leaves rows that are
    all different. *)
Lemma unmarked_select (mask : list bool) (l : list row) :
  existsb (fun b => b) (duplicated_from [] l) = false ->
  existsb (fun b => b) (duplicated_from [] (select mask l)) = false.
Proof.
  intros H. apply unmarked_iff in H. destruct H as [_ Hfop].
  apply unmarked_iff. split; [reflexivity|]. now apply FOP_select.
Qed.

(** X8.  In test_code2.py, where duplicates are dropped before nulls are
    handled, "Drop Rows" is the null choice that is safe: the frame it
    leaves has no missing cell, and no duplicate row when duplicates
    were dropped, since removing rows cannot make two rows equal. *)
Theorem drop_rows_after_duplicates (d : DupChoice) (df : DataFrame) :
  has_nulls (clean2 d DropRows df) = false
  /\ duplicated_any (clean2 DropDuplicates DropRows df) = false.
Proof.
  split.
  - unfold clean2. cbn [null_choice_step].
    match goal with
    | |- has_nulls (if has_nulls ?x then _ else _) = false =>
        destruct (has_nulls x) eqn:E; [apply dropna_any_no_nulls|exact E]
    end.
  - unfold clean2. cbn [null_choice_step].
    assert (Hd : duplicated_any
                   (if duplicated_any df
                    then drop_duplicates None keep_first df else df) = false).
    { destruct (duplicated_any df) eqn:E; [|exact E].
      apply drop_duplicates_unmarked. }
    match goal with
    | |- duplicated_any (if has_nulls ?x then _ else _) = false =>
        destruct (has_nulls x); [|exact Hd]
    end.
    unfold duplicated_any, duplicated, df_dropna in *.
    cbn [duplicated_keys keys_of] in *.
    rewrite rows_select_rows. now apply unmarked_select.
Qed.

(** *** Fills change missing cells only *)

Lemma kept_same (l : list cell) : Forall2 kept_or_filled l l.
Proof.
  induction l; constructor; [now right|assumption].
Qed.

Lemma kept_fill_cell (c : cell) (l : list cell) :
  Forall2 kept_or_filled l (map (fill_cell c) l).
Proof.
  induction l as [|[v|] l IH]; simpl; constructor;
    try exact IH; [now right|now left].
Qed.

Lemma kept_fillna (c : cell) (s : Series) :
  Forall2 kept_or_filled (s_cells s) (s_cells (fillna c s)).
Proof.
  rewrite fillna_cells. apply kept_fill_cell.
Qed.

Lemma kept_ffill (l : list cell) :
  forall last, Forall2 kept_or_filled l (ffill_from last l).
Proof.
  induction l as [|[v|] l IH]; intros last; simpl; constructor;
    try apply IH; [now right|now left].
Qed.

Lemma Forall2_reversed {A B : Type} (P : A -> B -> Prop) (l : list A)
  (l' : list B) :
  Forall2 P l l' -> Forall2 P (rev l) (rev l').
Proof.
  induction 1 as [|x y l l' Hxy H IH]; simpl; [constructor|].
  apply Forall2_app; [exact IH|]. constructor; [exact Hxy|constructor].
Qed.

Lemma kept_bfill (l : list cell) :
  Forall2 kept_or_filled l (rev (ffill_from None (rev l))).
Proof.
  rewrite <- (rev_involutive l) at 1.
  apply Forall2_reversed. apply kept_ffill.
Qed.

Lemma kept_fill_mode_column (s : Series) :
  Forall2 kept_or_filled (s_cells s) (s_cells (fill_mode_column s)).
Proof.
  unfold fill_mode_column.
  destruct (existsb isnull (s_cells s)); [|apply kept_same].
  destruct (mode s); [apply kept_same|apply kept_fillna].
Qed.

Lemma kept_custom_fill_column (text : string) (s : Series) :
  Forall2 kept_or_filled (s_cells s) (s_cells (custom_fill_column py text s)).
Proof.
  rewrite custom_fill_column_cells. apply kept_fill_cell.
Qed.

Lemma Forall2_map_same {A : Type} (P : A -> A -> Prop) (f : A -> A)
  (l : list A) :
  (forall x, P x (f x)) -> Forall2 P l (map f l).
Proof.
  intros H. induction l; simpl; constructor; [apply H|assumption].
Qed.

Lemma NoDup_filter_names (p : string * Series -> bool) (df : DataFrame) :
  NoDup (columns df) -> NoDup (map fst (filter p df)).
Proof.
  unfold columns.
  induction df as [|c df IH]; simpl; intros H; [constructor|].
  inversion H as [|? ? Hnotin Hnd]; subst.
  destruct (p c).
  - simpl. constructor; [|now apply IH].
    intros Hin. apply Hnotin.
    apply in_map_iff in Hin. destruct Hin as (c' & Hc' & Hin).
    apply filter_In in Hin. rewrite <- Hc'. apply in_map. tauto.
  - now apply IH.
Qed.

(** A loop over columns whose body only fills keeps names and values. *)
Lemma kept_on_columns {A : Type} (key : A -> string)
  (F : A -> Series -> Series) (items : list A) (df : DataFrame) :
  (forall a s, Forall2 kept_or_filled (s_cells s) (s_cells (F a s))) ->
  Forall2 (fun c c' =>
             fst c = fst c'
             /\ Forall2 kept_or_filled (s_cells (snd c)) (s_cells (snd c')))
          df (map (on_columns key F items) df).
Proof.
  intros HF. apply Forall2_map_same. intros c. unfold on_columns.
  destruct (find (fun a => String.eqb (key a) (fst c)) items) as [a|].
  - split; [reflexivity|apply HF].
  - split; [reflexivity|apply kept_same].
Qed.

(** X9.  The filling strategies of the null step (mean, median, mode,
    forward, backward, custom, and doing nothing) keep the columns, their
    names and their number of rows, and change no cell that holds a
    value: a cell of the result differs from the cell it comes from only
    where that one was missing. *)
Theorem fills_keep_values (ns : NullStrategy) (df : DataFrame) :
  is_fill ns = true ->
  NoDup (columns df) ->
  Forall2 (fun c c' =>
             fst c = fst c'
             /\ Forall2 kept_or_filled (s_cells (snd c)) (s_cells (snd c')))
          df (null_step py ns df).
Proof.
  intros Hfill Hnd.
  assert (Hloop : forall (names : list string) (f : string -> Series -> Series),
             NoDup names ->
             (forall n s, Forall2 kept_or_filled (s_cells s) (s_cells (f n s))) ->
             Forall2 (fun c c' =>
                        fst c = fst c'
                        /\ Forall2 kept_or_filled (s_cells (snd c))
                                   (s_cells (snd c')))
                     df (for_columns names f df)).
  { intros names f Hn Hf. unfold for_columns.
    rewrite (fold_update_col (fun n => n) f names);
      [now apply kept_on_columns|now rewrite map_id|exact Hnd]. }
  destruct ns as [| | | | | | | |text_input apply_clicked];
    try discriminate; cbn [null_step].
  - rewrite <- (map_id df) at 2.
    apply Forall2_map_same. intros c. split; [reflexivity|apply kept_same].
  - apply Hloop; [now apply NoDup_filter_names|].
    intros n s. apply kept_fillna.
  - apply Hloop; [now apply NoDup_filter_names|].
    intros n s. apply kept_fillna.
  - apply Hloop; [exact Hnd|]. intros n s. apply kept_fill_mode_column.
  - apply Forall2_map_same. intros c. split; [reflexivity|apply kept_ffill].
  - apply Forall2_map_same. intros c. split; [reflexivity|apply kept_bfill].
  - destruct apply_clicked.
    + rewrite (fold_update_col (@fst string string)
                 (fun kv => custom_fill_column py (snd kv))).
      * apply kept_on_columns. intros a s. apply kept_custom_fill_column.
      * apply fill_values_keys. now apply NoDup_columns_with_nulls.
      * exact Hnd.
    + rewrite <- (map_id df) at 2.
      apply Forall2_map_same. intros c. split; [reflexivity|apply kept_same].
Qed.

(** *** Forward and backward fill *)

Lemma dropna_app (l1 l2 : list cell) :
  dropna (l1 ++ l2) = (dropna l1 ++ dropna l2)%list.
Proof.
  induction l1 as [|[v|] l1 IH]; simpl; congruence.
Qed.

Lemma dropna_rev (l : list cell) : dropna (rev l) = rev (dropna l).
Proof.
  induction l as [|[v|] l IH]; simpl; rewrite ?dropna_app, ?IH; simpl.
  - reflexivity.
  - reflexivity.
  - now rewrite app_nil_r.
Qed.

Lemma ffill_from_length (l : list cell) :
  forall last, List.length (ffill_from last l) = List.length l.
Proof.
  induction l as [|[v|] l IH]; intros last; simpl; now rewrite ?IH.
Qed.

(** The cell at position [i] of a forward-filled column is the last
    value found from the top down to [i], and what was carried in when
    there is none. *)
Lemma ffill_from_nth (l : list cell) :
  forall last i,
    i < List.length l ->
    nth i (ffill_from last l) None
    = match rev (dropna (firstn (S i) l)) with
      | v :: _ => Some v
      | [] => last
      end.
Proof.
  induction l as [|c l IH]; intros last i Hi; simpl in Hi; [lia|].
  destruct i as [|i].
  - destruct c as [v|]; reflexivity.
  - assert (Hi' : i < List.length l) by lia.
    destruct c as [v|]; cbn [ffill_from nth]; rewrite (IH _ i Hi').
    + change (firstn (S (S i)) (Some v :: l))
        with (Some v :: firstn (S i) l).
      cbn [dropna rev].
      now destruct (rev (dropna (firstn (S i) l))).
    + reflexivity.
Qed.

(** X10.  "Forward fill (propagate last valid value)": in every column,
    each cell of the result holds the nearest value at or above its
    position in the original column, and stays missing when the column
    has no value down to there, so that leading missing cells are kept. *)
Theorem forward_fill_takes_last_valid (df : DataFrame) (name : string)
  (s : Series) (i : nat) :
  In (name, s) df ->
  i < len s ->
  exists s',
    In (name, s') (null_step py ForwardFill df)
    /\ len s' = len s
    /\ nth i (s_cells s') None
       = hd_error (rev (dropna (firstn (S i) (s_cells s)))).
Proof.
  intros Hin Hi. exists (ffill s). split; [|split].
  - cbn [null_step]. unfold df_ffill.
    change (name, ffill s)
      with ((fun c : string * Series => (fst c, ffill (snd c))) (name, s)).
    now apply in_map.
  - unfold len, ffill. cbn [s_cells]. apply ffill_from_length.
  - unfold ffill. cbn [s_cells]. rewrite (ffill_from_nth _ None i Hi).
    now destruct (rev (dropna (firstn (S i) (s_cells s)))).
Qed.

(** X11.  "Backward fill (propagate next valid value)": each cell of the
    result holds the nearest value at or below its position in the
    original column, and stays missing when no value follows, so that
    trailing missing cells are kept. *)
Theorem backward_fill_takes_next_valid (df : DataFrame) (name : string)
  (s : Series) (i : nat) :
  In (name, s) df ->
  i < len s ->
  exists s',
    In (name, s') (null_step py BackwardFill df)
    /\ len s' = len s
    /\ nth i (s_cells s') None = hd_error (dropna (skipn i (s_cells s))).
Proof.
  intros Hin Hi. exists (bfill s). split; [|split].
  - cbn [null_step]. unfold df_bfill.
    change (name, bfill s)
      with ((fun c : string * Series => (fst c, bfill (snd c))) (name, s)).
    now apply in_map.
  - unfold len, bfill. cbn [s_cells].
    now rewrite length_rev, ffill_from_length, length_rev.
  - unfold len in Hi. unfold bfill. cbn [s_cells].
    set (l := s_cells s) in *.
    assert (Hlen : List.length (ffill_from None (rev l)) = List.length l).
    { now rewrite ffill_from_length, length_rev. }
    rewrite rev_nth by (rewrite Hlen; exact Hi).
    rewrite Hlen.
    rewrite ffill_from_nth by (rewrite length_rev; lia).
    replace (S (List.length l - S i)) with (List.length l - i) by lia.
    rewrite firstn_rev.
    replace (List.length l - (List.length l - i)) with i by lia.
    rewrite dropna_rev, rev_involutive.
    now destruct (dropna (skipn i l)).
Qed.

(** *** What drop_duplicates removes *)

Lemma value_eqb_refl (a : value) : value_eqb a a = true.
Proof.
  destruct a; simpl;
    try apply String.eqb_refl; try apply Z.eqb_refl; apply Qeq_bool_refl.
Qed.

Lemma value_eqb_trans (a b c : value) :
  value_eqb a b = true -> value_eqb b c = true -> value_eqb a c = true.
Proof.
  destruct a, b, c; simpl; try discriminate;
    try (apply Qeq_bool_trans).
  - intros H1 H2. apply String.eqb_eq in H1, H2. subst. apply String.eqb_refl.
  - intros H1 H2. apply Z.eqb_eq in H1, H2. subst. apply Z.eqb_refl.
Qed.

Lemma cell_eqb_refl (a : cell) : cell_eqb a a = true.
Proof.
  destruct a; [apply value_eqb_refl|reflexivity].
Qed.

Lemma cell_eqb_trans (a b c : cell) :
  cell_eqb a b = true -> cell_eqb b c = true -> cell_eqb a c = true.
Proof.
  destruct a, b, c; simpl; try discriminate; try reflexivity.
  apply value_eqb_trans.
Qed.

Lemma row_eqb_refl (r : row) : row_eqb r r = true.
Proof.
  induction r as [|a r IH]; simpl; [reflexivity|].
  now rewrite cell_eqb_refl, IH.
Qed.

Lemma row_eqb_trans (r1 : row) :
  forall r2 r3,
    row_eqb r1 r2 = true -> row_eqb r2 r3 = true -> row_eqb r1 r3 = true.
Proof.
  induction r1 as [|a r1 IH]; intros [|b r2] [|c r3]; simpl;
    try discriminate; try reflexivity.
  intros H1 H2.
  apply andb_prop in H1. apply andb_prop in H2.
  destruct H1 as [Hab H1], H2 as [Hbc H2].
  now rewrite (cell_eqb_trans a b c Hab Hbc), (IH r2 r3 H1 H2).
Qed.

Lemma existsb_row_trans (x r : row) (seen : list row) :
  row_eqb x r = true ->
  existsb (row_eqb r) seen = true ->
  existsb (row_eqb x) seen = true.
Proof.
  intros Hxr H. apply existsb_exists in H. destruct H as (y & Hy & Hry).
  apply existsb_exists. exists y. split; [exact Hy|].
  exact (row_eqb_trans x r y Hxr Hry).
Qed.

(** Every key equals a seen key or a key that is kept. *)
Lemma first_kept_covers (keys : list row) :
  forall seen r,
    In r keys ->
    existsb (row_eqb r) seen = true
    \/ exists r',
        In r' (select (map negb (duplicated_from seen keys)) keys)
        /\ row_eqb r r' = true.
Proof.
  induction keys as [|k keys IH]; intros seen r Hr; [contradiction|].
  cbn [duplicated_from map select].
  destruct (existsb (row_eqb k) seen) eqn:Ek; cbn [negb].
  - destruct Hr as [<-|Hr]; [now left|].
    destruct (IH (k :: seen) r Hr) as [H|H]; [|now right].
    cbn [existsb] in H. apply orb_prop in H. destruct H as [H|H].
    + left. exact (existsb_row_trans r k seen H Ek).
    + now left.
  - destruct Hr as [<-|Hr].
    + right. exists k. split; [now left|apply row_eqb_refl].
    + destruct (IH (k :: seen) r Hr) as [H|(r' & Hin & Heq)].
      * cbn [existsb] in H. apply orb_prop in H. destruct H as [H|H].
        -- right. exists k. split; [now left|exact H].
        -- now left.
      * right. exists r'. split; [now right|exact Heq].
Qed.

(** X12.  "Drop all duplicates (keep first)" loses no information: every
    row of the frame equals a row that is kept, and every row that is
    kept is a row of the frame. *)
Theorem drop_duplicates_loses_nothing (df : DataFrame) (r : row) :
  In r (rows df) ->
  (exists r', In r' (rows (dup_step DropKeepFirst df))
              /\ row_eqb r r' = true)
  /\ (forall r', In r' (rows (dup_step DropKeepFirst df)) ->
                 In r' (rows df)).
Proof.
  intros Hr. cbn [dup_step]. unfold drop_duplicates, duplicated.
  cbn [keys_of duplicated_keys]. rewrite rows_select_rows. split.
  - destruct (first_kept_covers (rows df) [] r Hr) as [H|H];
      [discriminate|exact H].
  - intros r'. apply select_In.
Qed.

Lemma select_count {A : Type} (mask : list bool) :
  forall (l : list A),
    List.length mask = List.length l ->
    List.length (select (map negb mask) l)
    + List.length (filter (fun b => b) mask)
    = List.length l.
Proof.
  induction mask as [|b mask IH]; intros [|x l] H; simpl in H;
    try discriminate; [reflexivity|].
  specialize (IH l ltac:(lia)).
  destruct b; simpl; lia.
Qed.

(** X13.  The number shown as "Total duplicate rows detected" is the
    number of rows that "Drop all duplicates (keep first)" removes. *)
Theorem duplicate_count_is_rows_removed (df : DataFrame) :
  List.length (rows (dup_step DropKeepFirst df)) + num_duplicates df
  = List.length (rows df).
Proof.
  cbn [dup_step]. unfold drop_duplicates, num_duplicates, duplicated.
  cbn [keys_of duplicated_keys]. rewrite rows_select_rows.
  apply select_count. apply duplicated_from_length.
Qed.

(** *** Which columns a fill touches *)

Lemma column_unique (df : DataFrame) (n : string) (s s' : Series) :
  NoDup (columns df) -> In (n, s) df -> In (n, s') df -> s = s'.
Proof.
  unfold columns.
  induction df as [|c df IH]; intros Hnd H H'; [contradiction|].
  simpl in Hnd. inversion Hnd as [|? ? Hnotin Hnd']; subst.
  destruct H as [->|H], H' as [H'|H'].
  - congruence.
  - exfalso. apply Hnotin. apply in_map_iff.
    exists (n, s'). split; [reflexivity|exact H'].
  - exfalso. apply Hnotin. rewrite H'. apply in_map_iff.
    exists (n, s). split; [reflexivity|exact H].
  - now apply IH.
Qed.

(** With names that are all different, a column is among the names of
    the columns picked by a test exactly when it passes the test. *)
Lemma filter_names_In (p : string * Series -> bool) (df : DataFrame)
  (n : string) (s : Series) :
  NoDup (columns df) ->
  In (n, s) df ->
  In n (map fst (filter p df)) <-> p (n, s) = true.
Proof.
  intros Hnd Hin. split.
  - intros H. apply in_map_iff in H. destruct H as ([n' s'] & Hn & Hc).
    apply filter_In in Hc. destruct Hc as [Hc Hp].
    simpl in Hn. subst n'.
    now rewrite (column_unique df n s s' Hnd Hin Hc).
  - intros Hp. change n with (fst (n, s)). apply in_map.
    apply filter_In. split; assumption.
Qed.

Lemma on_columns_names_absent (f : string -> Series -> Series)
  (names : list string) (c : string * Series) :
  ~ In (fst c) names -> on_columns (fun n => n) f names c = c.
Proof.
  intros H. unfold on_columns.
  now rewrite (find_key_absent (fun n => n) names (fst c))
    by (now rewrite map_id).
Qed.

Lemma on_columns_names_present (f : string -> Series -> Series)
  (names : list string) (c : string * Series) :
  In (fst c) names ->
  on_columns (fun n => n) f names c = (fst c, f (fst c) (snd c)).
Proof.
  intros H. unfold on_columns. now rewrite (find_names names (fst c) H).
Qed.

(** X16.  "Fill with column mean (numeric only)" and its median twin:
    a column stored as int64 or float64 has its missing cells replaced
    by the mean (median) of its values; every other column leaves the
    step exactly as it entered. *)
Theorem mean_fill_numeric_only (median : bool) (df : DataFrame)
  (name : string) (s : Series) :
  NoDup (columns df) ->
  In (name, s) df ->
  let ns := if median then FillMedian else FillMean in
  let stat := if median then median_of py else mean_of py in
  match s_dtype s with
  | int64 | float64 =>
      exists s',
        In (name, s') (null_step py ns df)
        /\ s_cells s'
           = map (fill_cell (stat (dropna (s_cells s)))) (s_cells s)
  | _ => In (name, s) (null_step py ns df)
  end.
Proof.
  intros Hnd Hin. cbv zeta.
  set (p := fun c : string * Series =>
              match s_dtype (snd c) with
              | int64 | float64 => true
              | _ => false
              end).
  assert (Hnames : NoDup (number_columns df))
    by (now apply NoDup_filter_names).
  assert (Hmem : In name (number_columns df) <-> p (name, s) = true)
    by (now apply filter_names_In).
  assert (Hstep : forall f,
             for_columns (number_columns df) f df
             = map (on_columns (fun n => n) f (number_columns df)) df).
  { intros f. unfold for_columns.
    apply fold_update_col; [now rewrite map_id|exact Hnd]. }
  unfold p in Hmem. cbn [snd] in Hmem.
  assert (Hnum : forall f,
             In name (number_columns df) ->
             In (name, f name s) (for_columns (number_columns df) f df)).
  { intros f Hn. rewrite Hstep.
    replace (name, f name s)
      with (on_columns (fun n => n) f (number_columns df) (name, s));
      [now apply in_map|].
    now apply on_columns_names_present. }
  assert (Hother : forall f,
             ~ In name (number_columns df) ->
             In (name, s) (for_columns (number_columns df) f df)).
  { intros f Hn. rewrite Hstep.
    replace (name, s)
      with (on_columns (fun n => n) f (number_columns df) (name, s)) at 1;
      [now apply in_map|].
    now apply on_columns_names_absent. }
  destruct (s_dtype s) eqn:Ed;
    try (destruct median; cbn [null_step]; apply Hother;
         intros H; apply Hmem in H; discriminate);
    destruct median; cbn [null_step];
    (eexists; split;
     [ apply (Hnum (fun _ s0 => fillna _ s0)); now apply Hmem
     | apply fillna_cells ]).
Qed.

Lemma find_fill_value_none (text_input : string -> string)
  (names : list string) (n : string) :
  ~ In n names \/ text_input n = "" ->
  find (fun kv => String.eqb (fst kv) n)
       (filter (fun kv => negb (String.eqb (snd kv) ""))
               (map (fun col => (col, text_input col)) names))
  = None.
Proof.
  intros H. induction names as [|a names IH]; [reflexivity|].
  cbn [map filter snd].
  assert (IH' : find (fun kv => String.eqb (fst kv) n)
                  (filter (fun kv => negb (String.eqb (snd kv) ""))
                     (map (fun col => (col, text_input col)) names)) = None).
  { apply IH. destruct H as [H|H]; [left|now right].
    intros Hin. apply H. now right. }
  destruct (String.eqb (text_input a) "") eqn:Et; cbn [negb];
    [exact IH'|].
  cbn [find fst].
  destruct (String.eqb a n) eqn:Ea; [|exact IH'].
  apply String.eqb_eq in Ea. subst a.
  destruct H as [H|H].
  - exfalso. apply H. now left.
  - rewrite H in Et. discriminate.
Qed.

(** X17.  The custom fill touches only the columns it was given a text
    for: a column without missing cells (no input is shown for it) and
    a column whose input was left blank leave the step exactly as they
    entered, and so does every column while the button is not pressed. *)
Theorem custom_fill_other_columns (text_input : string -> string)
  (apply_clicked : bool) (df : DataFrame) (name : string) (s : Series) :
  NoDup (columns df) ->
  In (name, s) df ->
  existsb isnull (s_cells s) = false \/ text_input name = ""
  \/ apply_clicked = false ->
  In (name, s) (null_step py (CustomPerColumn text_input apply_clicked) df).
Proof.
  intros Hnd Hin H. cbn [null_step].
  destruct apply_clicked; [|exact Hin].
  rewrite (fold_update_col (@fst string string)
             (fun kv => custom_fill_column py (snd kv)));
    [|apply fill_values_keys; now apply NoDup_columns_with_nulls|exact Hnd].
  replace (name, s)
    with (on_columns (@fst string string)
            (fun kv => custom_fill_column py (snd kv))
            (fill_values text_input df) (name, s)) at 1;
    [now apply in_map|].
  unfold on_columns, fill_values. cbn [fst].
  rewrite find_fill_value_none; [reflexivity|].
  destruct H as [H|[H|H]]; [left|now right|discriminate].
  unfold columns_with_nulls. intros Hmem.
  apply (filter_names_In _ df name s Hnd Hin) in Hmem.
  cbn [snd] in Hmem. congruence.
Qed.

(** *** The rows that dropna keeps *)

Lemma select_filter {A : Type} (f : A -> bool) (l : list A) :
  select (map f l) l = filter f l.
Proof.
  induction l as [|x l IH]; simpl; [reflexivity|].
  now destruct (f x); rewrite IH.
Qed.

Lemma zip_cons_rows_nonempty (c : list cell) :
  forall rs r, In r (zip_cons c rs) -> r <> [].
Proof.
  induction c as [|x c IH]; intros [|r0 rs] r H; simpl in H;
    try contradiction.
  destruct H as [<-|H]; [discriminate|]. exact (IH rs r H).
Qed.

Lemma transpose_rows_nonempty (cols : list (list cell)) (r : row) :
  In r (transpose cols) -> r <> [].
Proof.
  destruct cols as [|c [|c2 cols]]; [contradiction| |].
  - cbn [transpose]. intros H. apply in_map_iff in H.
    destruct H as (x & <- & _). discriminate.
  - change (transpose (c :: c2 :: cols))
      with (zip_cons c (transpose (c2 :: cols))).
    apply zip_cons_rows_nonempty.
Qed.

(** X18.  The two drops read row by row: "Drop rows with any nulls"
    keeps, in order, the rows without a missing cell, "Drop rows with
    all nulls" the rows with at least one value; every row the first
    keeps, the second keeps too. *)
Theorem dropna_keeps_rows (df : DataFrame) :
  rows (null_step py DropRowsAnyNull df)
  = filter (forallb (fun c => negb (isnull c))) (rows df)
  /\ rows (null_step py DropRowsAllNull df)
     = filter (existsb (fun c => negb (isnull c))) (rows df)
  /\ incl (rows (null_step py DropRowsAnyNull df))
          (rows (null_step py DropRowsAllNull df)).
Proof.
  assert (Hany : rows (null_step py DropRowsAnyNull df)
                 = filter (survives how_any) (rows df)).
  { cbn [null_step]. unfold df_dropna.
    now rewrite rows_select_rows, select_filter. }
  assert (Hall : rows (null_step py DropRowsAllNull df)
                 = filter (survives how_all) (rows df)).
  { cbn [null_step]. unfold df_dropna.
    now rewrite rows_select_rows, select_filter. }
  split; [exact Hany|]. split; [exact Hall|].
  rewrite Hany, Hall. intros r Hr.
  apply filter_In in Hr. destruct Hr as [Hr Hs].
  apply filter_In. split; [exact Hr|].
  cbn [survives] in *.
  assert (Hne : r <> []) by (now apply transpose_rows_nonempty in Hr).
  destruct r as [|x r]; [congruence|].
  cbn [forallb existsb] in *. apply andb_prop in Hs.
  destruct Hs as [Hx _]. now rewrite Hx.
Qed.

End MoreCleaning.

(* ================================================================== *)
(** * Further properties of the charts *)

Section MoreCharts.

Lemma hd_skipn {A : Type} (l : list A) :
  forall k, hd_error (skipn k l) = nth_error l k.
Proof.
  induction l as [|x l IH]; intros [|k]; simpl; auto.
Qed.

Lemma tl_skipn {A : Type} (l : list A) :
  forall k, tl (skipn k l) = skipn (S k) l.
Proof.
  induction l as [|x l IH]; intros [|k]; try reflexivity.
  exact (IH k).
Qed.

Lemma guarded_nth {A B : Type} (l : list A) (k : nat) (f : A -> list B) :
  (if k <? List.length l
   then match nth_error l k with Some c => f c | None => [] end
   else [])
  = match nth_error l k with Some c => f c | None => [] end.
Proof.
  destruct (k <? List.length l) eqn:E; [reflexivity|].
  apply Nat.ltb_ge in E. apply nth_error_None in E. now rewrite E.
Qed.

(** The rows of the grid from row [m] on, against the charts from
    position [2 * m] on. *)
Lemma chart_grid_from (configs : list chart_config) :
  forall r m,
    flat_map
      (fun i =>
         flat_map
           (fun j =>
              if i + j <? List.length configs then
                match nth_error configs (i + j) with
                | Some config => [render_chart (i + j) config]
                | None => []
                end
              else [])
           [0; 1])
      (map (fun k => 2 * k) (seq m r))
    = render_from (2 * m) (firstn (2 * r) (skipn (2 * m) configs)).
Proof.
  induction r as [|r IH]; intros m; [reflexivity|].
  cbn [seq map flat_map]. rewrite IH. rewrite !guarded_nth.
  rewrite <- !hd_skipn.
  replace (2 * m + 0) with (2 * m) by lia.
  replace (2 * m + 1) with (S (2 * m)) by lia.
  replace (2 * S m) with (S (S (2 * m))) by lia.
  replace (2 * S r) with (S (S (2 * r))) by lia.
  rewrite <- !tl_skipn.
  destruct (skipn (2 * m) configs) as [|a [|b rest]]; cbn;
    try rewrite firstn_nil; reflexivity.
Qed.

Lemma render_from_length (configs : list chart_config) :
  forall n, List.length (render_from n configs) = List.length configs.
Proof.
  induction configs as [|c configs IH]; intros n; simpl;
    [reflexivity|now rewrite IH].
Qed.

(** X14.  The grid of two charts per row shows every configured chart
    once, in the order of configuration and under its own number, the
    last chart of an odd count included: the guard [i + j < len] cuts
    only the empty slot after it. *)
Theorem chart_grid_shows_every_chart (configs : list chart_config) :
  chart_grid configs = render_charts configs
  /\ List.length (chart_grid configs) = List.length configs
  /\ forall i config,
       nth_error configs i = Some config ->
       nth_error (chart_grid configs) i = Some (render_chart i config).
Proof.
  assert (H : chart_grid configs = render_charts configs).
  { unfold chart_grid, range_by_two, render_charts.
    rewrite chart_grid_from.
    change (skipn (2 * 0) configs) with configs.
    rewrite firstn_all2; [reflexivity|].
    pose proof (Nat.div_mod_eq (List.length configs + 1) 2) as Hd.
    assert (Hm : (List.length configs + 1) mod 2 < 2)
      by (apply Nat.mod_upper_bound; discriminate).
    lia. }
  split; [exact H|]. rewrite H. split.
  - apply render_from_length.
  - intros i config Hi. now rewrite render_charts_nth, Hi.
Qed.






End MoreCharts.

(* ================================================================== *)
(** * The theorems at work on examples *)

(** C1: a column of missing cells is suggested as Float (under any
    dtype it can have), and a text column without rows as Timestamp;
    neither as Text. *)
Lemma all_missing_is_not_text :
  dropna (s_cells all_missing) = []
  /\ suggest_dtype demo_runtime first_draws all_missing = Float
  /\ suggest_dtype demo_runtime first_draws all_nan = Float
  /\ suggest_dtype demo_runtime first_draws no_rows = Timestamp
  /\ Float <> Text /\ Timestamp <> Text.
Proof.
  repeat split; discriminate.
Qed.

(** C1 at the column of two missing cells. *)
Lemma suggest_dtype_without_values_all_missing :
  dropna (s_cells all_missing) = []
  /\ suggest_dtype demo_runtime first_draws all_missing <> Text
  /\ (suggest_dtype demo_runtime first_draws all_missing = Timestamp
      \/ suggest_dtype demo_runtime first_draws all_missing = Float).
Proof.
  split; [reflexivity|].
  destruct (suggest_dtype_without_values demo_runtime first_draws all_missing
              eq_refl) as [Hnot [_ Hor]].
  split; [exact Hnot|exact Hor].
Defined.

(** C9: why the seed has to be fixed.  Of these fifty-one texts the
    last one is no date; a run whose draws leave it out suggests
    Timestamp, a run that draws it first suggests Category. *)
Example seed_matters :
  suggest_dtype demo_runtime first_draws fifty_dates_and_a_word = Timestamp
  /\ suggest_dtype demo_runtime (fun _ => 50) fifty_dates_and_a_word
     = Category.
Proof.
  split; vm_compute; reflexivity.
Qed.

(** C2: the texts "1", "2", "3" are numeric and none has a fractional
    part; the specification's rule gives Integer, the script Float (and
    Timestamp with a parser that takes such texts for dates). *)
Lemma whole_number_texts_are_float :
  s_dtype whole_numbers = object_
  /\ all_isnumeric demo_runtime whole_numbers = true
  /\ spec_numeric_text_type whole_numbers = Integer
  /\ suggest_dtype demo_runtime first_draws whole_numbers = Float
  /\ suggest_dtype lenient_runtime first_draws whole_numbers = Timestamp
  /\ Float <> Integer /\ Timestamp <> Integer.
Proof.
  repeat split; discriminate.
Qed.

(** C2 at the texts "1", "2", "3.5". *)
Lemma numeric_text_is_float_with_fraction :
  (s_dtype with_fraction = object_
   /\ all_isnumeric demo_runtime with_fraction = true)
  /\ (suggest_dtype demo_runtime first_draws with_fraction = Float
      /\ suggest_dtype demo_runtime first_draws with_fraction <> Integer).
Proof.
  split.
  - split; reflexivity.
  - exact (numeric_text_is_float demo_runtime first_draws with_fraction
             eq_refl eq_refl).
Defined.

(** C4: with the gap left out, the same date column is a Timestamp
    column; the date of [dated_with_gap] is one the parser accepts. *)
Example dates_are_timestamps :
  suggest_dtype demo_runtime first_draws dates = Timestamp
  /\ forallb (parses_datetime demo_runtime)
             (dropna (s_cells dated_with_gap)) = true.
Proof.
  split; reflexivity.
Qed.

(** C8 at twenty-one rows of one word: 20 * 1 < 21. *)
Lemma category_rule_threshold_reds :
  reaches_category_rule demo_runtime first_draws reds = true
  /\ suggest_dtype demo_runtime first_draws reds = Category.
Proof.
  split.
  - reflexivity.
  - destruct (category_rule_threshold demo_runtime first_draws reds)
      as (_ & _ & H).
    destruct (H eq_refl) as [[_ Hc] _].
    apply Hc. cbv. lia.
Defined.

(** C9: the same dates give Timestamp, and Text once a missing cell
    follows them; the same thirty colours give Text, and Category once
    eleven missing cells follow them.  Same dtype, same values, same
    seed: only the number of rows differs. *)
Lemma same_values_other_row_count :
  (s_dtype dates = s_dtype dates_then_gap
   /\ dropna (s_cells dates) = dropna (s_cells dates_then_gap)
   /\ suggest_dtype demo_runtime first_draws dates = Timestamp
   /\ suggest_dtype demo_runtime first_draws dates_then_gap = Text)
  /\ (s_dtype thirty_colours = s_dtype thirty_colours_then_gaps
      /\ dropna (s_cells thirty_colours)
         = dropna (s_cells thirty_colours_then_gaps)
      /\ suggest_dtype demo_runtime first_draws thirty_colours = Text
      /\ suggest_dtype demo_runtime first_draws thirty_colours_then_gaps
         = Category)
  /\ Timestamp <> Text /\ Text <> Category.
Proof.
  repeat split; try (vm_compute; reflexivity); discriminate.
Qed.

(** C9 at two columns of fifty-two rows that differ in where the gap
    stands, under two generators that draw alike: fifty of the fifty-one
    values are drawn, the word first, in both runs. *)
Lemma suggest_dtype_deterministic_draws :
  sample draws_50 (sample_size gap_first) (dropna (s_cells gap_first))
  = Some (str_value "soon" :: repeat (str_value "2020-01-01") 49)
  /\ suggest_dtype demo_runtime draws_50 gap_first = Category
  /\ suggest_dtype demo_runtime draws_50 gap_first
     = suggest_dtype demo_runtime draws_50_again gap_last.
Proof.
  split; [vm_compute; reflexivity|].
  split; [vm_compute; reflexivity|].
  apply (suggest_dtype_deterministic demo_runtime draws_50 draws_50_again
           gap_first gap_last).
  - intros k. unfold draws_50, draws_50_again.
    now rewrite Nat.sub_diag, Nat.add_0_r.
  - reflexivity.
  - reflexivity.
  - vm_compute. reflexivity.
Defined.

(** C3: in test_code2.py the duplicates are dropped first and the nulls
    filled afterwards; on [repeated_id] the forward fill recreates a
    duplicate that stays, where deduplication of the filled frame leaves
    one row. *)
Lemma duplicates_first_leaves_duplicates :
  clean2 DropDuplicates ForwardFillAll repeated_id = two_equal_rows
  /\ drop_duplicates None keep_first
       (null_choice_step ForwardFillAll repeated_id) = one_row
  /\ duplicated_any (clean2 DropDuplicates ForwardFillAll repeated_id) = true
  /\ rows two_equal_rows <> rows one_row.
Proof.
  repeat split. discriminate.
Qed.

(** The same frame through test_code4.py. *)
Example nulls_first_on_repeated_id :
  clean demo_runtime ForwardFill DropKeepFirst repeated_id = one_row.
Proof.
  reflexivity.
Qed.

(** C5: piping_data.py hands a histogram to the plotting library with no
    axis at all when the frame has no numeric column, and its bar chart
    raises when the frame has no text column; the chart loop skips a
    histogram whose single axis is specified. *)
Lemma single_axis_charts_not_validated :
  render_plot text_only (mkPicks Histogram 0 0 0)
  = Plot (mkFigure Histogram None None None)
  /\ render_plot text_only (mkPicks Box 0 0 0)
     = Plot (mkFigure Box None None None)
  /\ render_plot numbers_only (mkPicks Bar 0 0 0) = KeyError
  /\ render_chart 0 (configure text_only (mkPicks Histogram 1 0 0))
     = Warning "Chart 1 skipped: x or y axis not specified.".
Proof.
  repeat split.
Qed.

(** C5 at a bar chart with both axes picked and a box plot with its y
    axis only. *)
Lemma chart_needs_both_axes_text_only :
  (In "name" (columns text_only)
   /\ In "name" (columns text_only)
   /\ exists color,
       render_chart 0 (configure text_only (mkPicks Bar 1 1 0))
       = Plot (mkFigure Bar (Some "name") (Some "name") color))
  /\ exists msg,
      render_chart 0 (configure text_only (mkPicks Box 0 1 0)) = Warning msg.
Proof.
  split.
  - exact (proj1 (chart_needs_both_axes text_only (mkPicks Bar 1 1 0) 0)
             eq_refl).
  - exact (proj2 (chart_needs_both_axes text_only (mkPicks Box 0 1 0) 0)
             eq_refl).
Defined.

(** C7 on a column where 7 occurs twice and 8 once: the gap takes a
    value [m] of the column that 7 and 8 do not outnumber. *)
Lemma fill_mode_spec_gappy :
  exists s' m,
    In ("k", s') (null_step demo_runtime FillMode gappy)
    /\ In m [VInt 7; VInt 7; VInt 8]
    /\ (forall w, In w [VInt 7; VInt 7; VInt 8] ->
                  count w [VInt 7; VInt 7; VInt 8]
                  <= count m [VInt 7; VInt 7; VInt 8])
    /\ s_cells s' = [Some (VInt 7); Some m; Some (VInt 7); Some (VInt 8)].
Proof.
  assert (Hnd : NoDup (columns gappy)).
  { repeat constructor. intros []. }
  destruct (fill_mode_spec demo_runtime gappy "k"
              (mkSeries object_
                 [Some (VInt 7); None; Some (VInt 7); Some (VInt 8)])
              Hnd (or_introl eq_refl))
    as (s' & Hin & _ & Hfill).
  destruct Hfill as (m & Hm & Hmax & Hcells); [discriminate|].
  exists s', m. repeat split; assumption.
Defined.

(** C6 on the same column, with the text "5" typed for it: the first
    value is an int, so the cell gets the int 5. *)
Lemma custom_fill_spec_gappy :
  exists s',
    In ("k", s')
       (null_step demo_runtime (CustomPerColumn type_five true) gappy)
    /\ s_cells s'
       = [Some (VInt 7); Some (VInt 5); Some (VInt 7); Some (VInt 8)].
Proof.
  assert (Hnd : NoDup (columns gappy)).
  { repeat constructor. intros []. }
  assert (Htext : type_five "k" <> "") by discriminate.
  destruct (custom_fill_spec demo_runtime type_five gappy "k"
              (mkSeries object_
                 [Some (VInt 7); None; Some (VInt 7); Some (VInt 8)])
              Hnd (or_introl eq_refl) eq_refl Htext)
    as (s' & Hin & Hok & _).
  exists s'. split; [exact Hin|].
  exact (Hok (VInt 7) [VInt 7; VInt 8] (Some (VInt 5)) eq_refl eq_refl).
Defined.

(** C10: leaving the selection empty is not the same as comparing all
    columns; the two equal rows stay. *)
Example empty_subset_is_not_all_columns :
  dup_step (DropOnSubset []) two_equal_rows = two_equal_rows
  /\ dup_step DropKeepFirst two_equal_rows = one_row
  /\ dup_step (DropOnSubset ["id"]) repeated_id
     = [("id", mkSeries int64 [Some (VInt 1)]);
        ("val", mkSeries float64 [Some (VFloat 10)])].
Proof.
  repeat split.
Qed.

(** The scenarios of the specification. *)
Example scenario_drop_nulls_then_duplicates :
  clean demo_runtime DropRowsAnyNull DropKeepFirst scenario = scenario_cleaned.
Proof.
  reflexivity.
Qed.

Example scenario_colours :
  nunique colours = 2
  /\ suggest_dtype demo_runtime first_draws colours = Category.
Proof.
  split; vm_compute; reflexivity.
Qed.

(* ================================================================== *)
(** * The further properties at work on examples *)

(** X1 at the two dates, with a generator that draws the second date
    first. *)
Lemma small_column_sample_is_whole_dates :
  exists smp,
    sample (fun _ => 1) (sample_size dates) (dropna (s_cells dates))
    = Some smp
    /\ List.length smp = 2
    /\ Permutation smp [VStr "2020-01-01"; VStr "2020-02-01"].
Proof.
  apply (small_column_sample_is_whole (fun _ => 1) dates).
  - reflexivity.
  - cbv. lia.
Defined.

(** X2 at a column of answers, which is suggested as Boolean. *)
Lemma boolean_only_from_words_yes_no :
  suggest_dtype demo_runtime first_draws yes_no = Boolean
  /\ s_dtype yes_no = object_
  /\ try_to_datetime demo_runtime first_draws yes_no = false
  /\ all_isnumeric demo_runtime yes_no = false
  /\ all_bool_words demo_runtime yes_no = true.
Proof.
  split; [reflexivity|].
  exact (proj2 (boolean_only_from_words demo_runtime first_draws yes_no)
           eq_refl).
Defined.

(** X3 at the twenty-one rows of one word. *)
Lemma category_needs_many_rows_reds :
  s_dtype reds = object_ /\ 1 <= nunique reds /\ 21 <= len reds.
Proof.
  exact (category_needs_many_rows demo_runtime first_draws reds eq_refl).
Defined.

Lemma gappy_names : NoDup (columns gappy).
Proof.
  repeat constructor. intros [].
Qed.

Lemma scenario_names : NoDup (columns scenario).
Proof.
  repeat constructor; simpl; intuition discriminate.
Qed.

(** X9 at the column with a gap, filled with its mode. *)
Lemma fills_keep_values_gappy :
  Forall2 (fun c c' =>
             fst c = fst c'
             /\ Forall2 kept_or_filled (s_cells (snd c)) (s_cells (snd c')))
          gappy (null_step demo_runtime FillMode gappy).
Proof.
  apply (fills_keep_values demo_runtime FillMode gappy).
  - reflexivity.
  - exact gappy_names.
Defined.

(** X10 and X11 at the gap of the same column: 7 stands above it and 7
    below it. *)
Lemma forward_fill_takes_last_valid_gappy :
  exists s',
    In ("k", s') (null_step demo_runtime ForwardFill gappy)
    /\ len s' = 4
    /\ nth 1 (s_cells s') None = Some (VInt 7).
Proof.
  exact (forward_fill_takes_last_valid demo_runtime gappy "k" gappy_k 1
           (or_introl eq_refl) (le_n_S 1 3 (le_S 1 2 (le_S 1 1 (le_n 1))))).
Defined.

Lemma backward_fill_takes_next_valid_gappy :
  exists s',
    In ("k", s') (null_step demo_runtime BackwardFill gappy)
    /\ len s' = 4
    /\ nth 1 (s_cells s') None = Some (VInt 7).
Proof.
  exact (backward_fill_takes_next_valid demo_runtime gappy "k" gappy_k 1
           (or_introl eq_refl) (le_n_S 1 3 (le_S 1 2 (le_S 1 1 (le_n 1))))).
Defined.

(** X12 at the second of two equal rows. *)
Lemma drop_duplicates_loses_nothing_equal_rows :
  (exists r',
      In r' (rows (dup_step DropKeepFirst two_equal_rows))
      /\ row_eqb [Some (VInt 1); Some (VFloat 10)] r' = true)
  /\ (forall r',
         In r' (rows (dup_step DropKeepFirst two_equal_rows)) ->
         In r' (rows two_equal_rows)).
Proof.
  exact (drop_duplicates_loses_nothing two_equal_rows
           [Some (VInt 1); Some (VFloat 10)] (or_intror (or_introl eq_refl))).
Defined.

(** X16 at the frame of the scenario: the id column gets its mean, 5/3,
    in the gap. *)
Lemma mean_fill_numeric_only_scenario :
  exists s',
    In ("id", s') (null_step demo_runtime FillMean scenario)
    /\ s_cells s'
       = [Some (VFloat 1); Some (VFloat 2); Some (VFloat 2);
          Some (VFloat (5 # 3))].
Proof.
  exact (mean_fill_numeric_only demo_runtime false scenario "id" scenario_id
           scenario_names (or_introl eq_refl)).
Defined.

(** X17 on the same frame: no text is typed for its id column, which
    keeps its gap. *)
Lemma custom_fill_other_columns_scenario :
  In ("id", scenario_id)
     (null_step demo_runtime (CustomPerColumn type_five true) scenario).
Proof.
  apply (custom_fill_other_columns demo_runtime type_five true scenario
           "id" scenario_id scenario_names (or_introl eq_refl)).
  right. left. reflexivity.
Defined.

